(** * Price-comparison web application: catalog, search, accounts, journal

    A shallow embedding of the application logic of [app.py]: the
    password helpers and the login handler, the activity journal, the CSV
    catalog loader and the match-and-rank block of the [/process] handler,
    followed by the properties proved about them.

    Conventions.  A Python [str] is the [string] of the bytes of its UTF-8
    encoding; comparing two texts, looking one up in another and cutting
    at an ASCII character are the same on the bytes as on the characters.
    The methods of [str] whose result depends on the Unicode character
    tables ([lower], [strip], [split], [title]) are inputs: the functions
    that call them take them as the record [text_ops], and what is proved
    holds whatever these methods return.  A Python [dict] keyed by text is
    a [gmap string _]; a Python list is a [list].  A call that can raise
    returns an [option] or a dedicated outcome type.  The clock, the random
    bytes of the salt, SHA-256, the files on disk and what pandas makes of
    a CSV file are inputs of the functions that use them too. *)

From Stdlib Require Import String Ascii List Bool Arith ZArith QArith Lia.
From Stdlib Require Import Sorting.Sorted Sorting.Permutation.
From stdpp Require Import base option list strings gmap.

Import ListNotations.
Local Open Scope string_scope.
Local Open Scope list_scope.

(** ** Python text operations *)

Module PyStr.

Definition code (c : ascii) : nat := nat_of_ascii c.

(** Truth value of a [str]: the empty string is false. *)
Definition truthy (s : string) : bool :=
  match s with
  | EmptyString => false
  | String _ _ => true
  end.

(** A byte that continues a character in UTF-8 (10xxxxxx). *)
Definition is_continuation (c : ascii) : bool :=
  Nat.leb 128 (code c) && Nat.leb (code c) 191.

(** [len(s)]: the number of characters, that is of bytes that start
    one. *)
Fixpoint len (s : string) : nat :=
  match s with
  | EmptyString => 0
  | String c s' => (if is_continuation c then 0 else 1) + len s'
  end.

(** [s.split(sep)] for a one-character ASCII separator: cut at every
    occurrence, empty pieces kept. *)
Fixpoint split_on (sep : ascii) (s : string) : list string :=
  match s with
  | EmptyString => [EmptyString]
  | String c s' =>
      if Ascii.eqb c sep
      then EmptyString :: split_on sep s'
      else match split_on sep s' with
           | [] => [String c EmptyString]
           | piece :: rest => String c piece :: rest
           end
  end.

(** [sep in s] for one ASCII character *)
Fixpoint occurs (sep : ascii) (s : string) : bool :=
  match s with
  | EmptyString => false
  | String c s' => Ascii.eqb c sep || occurs sep s'
  end.

(** [s.endswith(suffix)] *)
Definition endswith (s suffix : string) : bool :=
  let n := String.length s in
  let k := String.length suffix in
  Nat.leb k n && String.eqb (String.substring (n - k) k s) suffix.

(** [needle in hay] *)
Fixpoint contains (hay needle : string) : bool :=
  String.prefix needle hay
  || match hay with
     | EmptyString => false
     | String _ hay' => contains hay' needle
     end.

(** The methods of [str] that go through the Unicode tables, as the
    interpreter provides them. *)
Record text_ops : Type := {
  str_lower : string -> string;        (* s.lower() *)
  str_strip : string -> string;        (* s.strip() *)
  str_title : string -> string;        (* s.title() *)
  str_split : string -> list string    (* s.split() *)
}.

End PyStr.

(** ** The text methods on ASCII text

    What [lower], [strip], [title] and [split] do to a text made of ASCII
    characters only.  They are not Python's methods, which also fold and
    trim characters beyond ASCII; they are the instance of [text_ops] on
    which the examples are run, where the methods meet ASCII text only. *)

Module AsciiText.
Import PyStr.

Definition is_upper (c : ascii) : bool :=
  Nat.leb 65 (code c) && Nat.leb (code c) 90.

Definition is_lower (c : ascii) : bool :=
  Nat.leb 97 (code c) && Nat.leb (code c) 122.

Definition is_alpha (c : ascii) : bool := is_upper c || is_lower c.

(** The ASCII characters for which [str.isspace] holds: TAB, LF, VT, FF,
    CR, FS, GS, RS, US, space. *)
Definition is_space (c : ascii) : bool :=
  (Nat.leb 9 (code c) && Nat.leb (code c) 13)
  || (Nat.leb 28 (code c) && Nat.leb (code c) 32).

Definition lower_char (c : ascii) : ascii :=
  if is_upper c then ascii_of_nat (code c + 32) else c.

Definition upper_char (c : ascii) : ascii :=
  if is_lower c then ascii_of_nat (code c - 32) else c.

Fixpoint lower (s : string) : string :=
  match s with
  | EmptyString => EmptyString
  | String c s' => String (lower_char c) (lower s')
  end.

(** The first letter of every run of letters in upper case, the other
    letters of the run in lower case. *)
Fixpoint title_from (in_word : bool) (s : string) : string :=
  match s with
  | EmptyString => EmptyString
  | String c s' =>
      if is_alpha c
      then String (if in_word then lower_char c else upper_char c)
                  (title_from true s')
      else String c (title_from false s')
  end.

Definition title (s : string) : string := title_from false s.

Fixpoint lstrip (s : string) : string :=
  match s with
  | EmptyString => EmptyString
  | String c s' => if is_space c then lstrip s' else s
  end.

Fixpoint rstrip (s : string) : string :=
  match s with
  | EmptyString => EmptyString
  | String c s' =>
      match rstrip s' with
      | EmptyString => if is_space c then EmptyString else String c EmptyString
      | r => String c r
      end
  end.

Definition strip (s : string) : string := rstrip (lstrip s).

Definition flush (word : string) : list string :=
  if truthy word then [word] else [].

(** The maximal runs of characters that are not white space, in order;
    [word] is the run being read. *)
Fixpoint split_from (word : string) (s : string) : list string :=
  match s with
  | EmptyString => flush word
  | String c s' =>
      if is_space c
      then flush word ++ split_from EmptyString s'
      else split_from (word ++ String c EmptyString) s'
  end.

Definition split (s : string) : list string := split_from EmptyString s.

Definition ops : text_ops :=
  {| str_lower := lower; str_strip := strip;
     str_title := title; str_split := split |}.

End AsciiText.

(** ** Python floats *)

Module PyFloat.

(** A [float]: a finite value, taken as the rational it denotes, an
    infinity, or NaN. *)
Inductive pyfloat : Type :=
| Fin (q : Q)
| PosInf
| NegInf
| NaN.

(** [a < b] *)
Definition lt (a b : pyfloat) : bool :=
  match a, b with
  | NaN, _ | _, NaN => false
  | NegInf, NegInf => false
  | NegInf, _ => true
  | _, NegInf => false
  | PosInf, _ => false
  | Fin _, PosInf => true
  | Fin x, Fin y => negb (Qle_bool y x)
  end.

(** [a == b] *)
Definition eqb (a b : pyfloat) : bool :=
  match a, b with
  | Fin x, Fin y => Qeq_bool x y
  | PosInf, PosInf => true
  | NegInf, NegInf => true
  | _, _ => false
  end.

(** [a <= b] *)
Definition le (a b : pyfloat) : bool := lt a b || eqb a b.

Definition is_nan (a : pyfloat) : bool :=
  match a with
  | NaN => true
  | _ => false
  end.

End PyFloat.

(** ** Password hashing and the login handler *)

Module Auth.
Import PyStr.

Definition hex_digit (n : nat) : ascii :=
  if Nat.ltb n 10 then ascii_of_nat (48 + n) else ascii_of_nat (87 + n).

(** Two lower-case hexadecimal digits per byte, as [bytes.hex()]. *)
Fixpoint hex (bytes : list ascii) : string :=
  match bytes with
  | [] => EmptyString
  | b :: rest =>
      String (hex_digit (code b / 16))
        (String (hex_digit (code b mod 16)) (hex rest))
  end.

Section Hashing.
(** [sha256 text] stands for [hashlib.sha256(text.encode()).digest()]. *)
Variable sha256 : string -> list ascii.

Definition hexdigest (text : string) : string := hex (sha256 text).

(** [hash_password]; [entropy] is the 16 random bytes that
    [secrets.token_hex(16)] draws. *)
Definition hash_password (entropy : list ascii) (password : string) : string :=
  let salt := hex entropy in
  salt ++ ":" ++ hexdigest (salt ++ password).

(** [verify_password]; [None] when the unpacking of
    [stored_password.split(':')] raises. *)
Definition verify_password (stored_password provided_password : string)
  : option bool :=
  match split_on ":"%char stored_password with
  | [salt; hashed] =>
      Some (String.eqb (hexdigest (salt ++ provided_password)) hashed)
  | _ => None
  end.
End Hashing.

Record search_entry : Type := {
  search_timestamp : string;
  search_category : string;
  search_keywords : string;
  matches_count : nat;
  image : string
}.

Record user : Type := {
  username : string;
  password : string;
  full_name : string;
  role : string;
  created_at : string;
  last_login : option string;
  uploads_count : nat;
  searches : option (list search_entry)
}.

Definition set_last_login (now : string) (u : user) : user :=
  {| username := username u; password := password u;
     full_name := full_name u; role := role u;
     created_at := created_at u; last_login := Some now;
     uploads_count := uploads_count u; searches := searches u |}.

Record session : Type := {
  user_email : string;
  user_name : string;
  session_full_name : string;
  session_role : string;
  permanent : bool
}.

Inductive endpoint : Type := LoginPage | IndexPage | AdminDashboard.

(** What one POST to [/login] decides. *)
Inductive login_outcome : Type :=
| Rejected (message category : string) (target : endpoint)
    (* flash(message, category); redirect(target); nothing is written *)
| Crashed
    (* verify_password raised: the request ends in a server error *)
| Accepted (saved : gmap string user) (s : session)
    (journal_actor journal_action journal_details : string)
    (message category : string) (target : endpoint).
    (* the password verified; the handler goes on with save_users(saved),
       the session keys of s, log_activity(...), flash(message, category)
       and redirect(target), in this order, and the two calls that write
       a file can still raise: see [Accounts.login_request] *)

Section Login.
Variable T : text_ops.
Variable sha256 : string -> list ascii.

(** The POST branch of [login] up to its last write: [users] is what
    [load_users()] returns, [now] the formatted clock and [remote_addr]
    the caller's address. *)
Definition login (users : gmap string user)
    (form_email form_password now remote_addr : string) : login_outcome :=
  let email := str_lower T (str_strip T form_email) in
  let password_ := form_password in
  if negb (truthy email) || negb (truthy password_) then
    Rejected "Email and password are required" "danger" LoginPage
  else
    match users !! email with
    | None => Rejected "Invalid email or password" "danger" LoginPage
    | Some u =>
        match verify_password sha256 (password u) password_ with
        | None => Crashed
        | Some false =>
            Rejected "Invalid email or password" "danger" LoginPage
        | Some true =>
            let u' := set_last_login now u in
            let users' := <[email := u']> users in
            Accepted users'
              {| user_email := email; user_name := username u';
                 session_full_name := full_name u';
                 session_role := role u'; permanent := true |}
              email "LOGIN" ("Successful login from " ++ remote_addr)
              ("Welcome back, " ++ username u' ++ "!") "success"
              (if String.eqb (role u') "admin"
               then AdminDashboard else IndexPage)
        end
    end.
End Login.

End Auth.

(** ** The activity journal *)

Module ActivityLog.

Record log_entry : Type := {
  timestamp : string;
  user : string;
  action : string;
  details : string;
  ip : string
}.

(** What [LOGS_FILE] holds: nothing, a JSON list of entries, or bytes
    that [open]/[json.load] fail on. *)
Inductive journal_file : Type :=
| NoFile
| Journal (logs : list log_entry)
| Unreadable.

(** How rewriting a file goes: [open(..., 'w')] and [json.dump] both
    succeed; [open] raises, and the file is as it was; or [open] has
    emptied the file and the writing raises before the text is complete,
    which leaves a file that [json.load] does not accept. *)
Inductive write_mode : Type :=
| CanWrite
| OpenRaises
| DumpRaises.

Record disk : Type := {
  logs_file : journal_file;
  writable : write_mode
}.

(** A call either returns or lets an exception reach its caller; both
    carry the disk and the console (the lines printed so far) as the call
    leaves them. *)
Inductive outcome : Type :=
| Returned (d : disk) (console : list string)
| Raised (d : disk) (console : list string).

(** The line [print] writes for an entry. *)
Definition console_line (entry : log_entry) : string :=
  "📝 [" ++ timestamp entry ++ "] " ++ user entry ++ ": " ++ action entry
  ++ " " ++ details entry.

Definition read_logs (d : disk) : list log_entry :=
  match logs_file d with
  | Journal logs => logs
  | NoFile => []
  | Unreadable => []    (* except: pass *)
  end.

(** [logs[-1000:]] when [len(logs) > 1000] *)
Definition keep_last (logs : list log_entry) : list log_entry :=
  if Nat.ltb 1000 (length logs)
  then drop (length logs - 1000) logs
  else logs.

(** [log_activity]; the clock and [request.remote_addr] are arguments.
    The console receives one line per call, printed before the file is
    touched. *)
Definition log_activity (d : disk) (console : list string)
    (now user_email action_ details_ remote_addr : string) : outcome :=
  let entry := {| timestamp := now; user := user_email; action := action_;
                  details := details_; ip := remote_addr |} in
  let console' := console ++ [console_line entry] in
  let logs := read_logs d in
  let logs := logs ++ [entry] in
  let logs := keep_last logs in
  match writable d with
  | CanWrite =>
      Returned {| logs_file := Journal logs; writable := CanWrite |} console'
  | OpenRaises => Raised d console'
  | DumpRaises =>
      Raised {| logs_file := Unreadable; writable := DumpRaises |} console'
  end.

(** A run of calls, one per element of [calls] (the clock, actor,
    action, detail and address of each call); the run stops at the first
    call that raises. *)
Fixpoint log_all (d : disk) (console : list string)
    (calls : list log_entry) : outcome :=
  match calls with
  | [] => Returned d console
  | c :: rest =>
      match log_activity d console (timestamp c) (user c) (action c)
              (details c) (ip c) with
      | Returned d' console' => log_all d' console' rest
      | Raised d' console' => Raised d' console'
      end
  end.

End ActivityLog.

(** ** The catalog loader *)

Module Catalog.
Import PyStr PyFloat.

(** A pandas scalar, seen through the two conversions the loader applies
    to it: [str(v)], and [float(v)] with [None] when the conversion
    raises.  An empty CSV cell is the scalar with text ["nan"] and float
    [NaN]. *)
Record cell : Type := {
  as_str : string;
  as_float : option pyfloat
}.

(** A value the loader stores without converting it. *)
Inductive pyvalue : Type :=
| VCell (c : cell)
| VSeries (cs : list cell)
| VStr (s : string)
| VInt (z : Z).

Record product : Type := {
  product_id : nat;
  name : string;
  category : string;
  store : string;
  price : pyfloat;
  currency : string;
  url : string;
  rating : pyvalue;
  brand : string;
  model_id : string;
  stock : string;
  discount_percent : pyvalue;
  description : string;
  image_url : string
}.

(** A row as [iterrows] yields it: the column labels with the row's
    cells. *)
Definition series : Type := list (string * cell).

(** [key in row] *)
Definition has_key (row : series) (key : string) : bool :=
  existsb (fun kv => String.eqb (fst kv) key) row.

(** The cells of the row under the label [key], in column order. *)
Definition cells_at (row : series) (key : string) : list cell :=
  map snd (List.filter (fun kv => String.eqb (fst kv) key) row).

(** What [row[key]] is: the cell when the label occurs once, a Series of
    the cells when it occurs more than once. *)
Inductive item : Type :=
| Scalar (v : cell)
| SubSeries (vs : list cell).

(** [row[key]] for a key that is present, [row.get(key, _)] otherwise. *)
Definition lookup (row : series) (key : string) : option item :=
  match cells_at row key with
  | [] => None
  | [v] => Some (Scalar v)
  | vs => Some (SubSeries vs)
  end.

(** [float(x)] for [x = row[key]]: a Series of several cells does not
    convert. *)
Definition item_float (x : item) : option pyfloat :=
  match x with
  | Scalar v => as_float v
  | SubSeries _ => None
  end.

Definition item_value (x : item) : pyvalue :=
  match x with
  | Scalar v => VCell v
  | SubSeries vs => VSeries vs
  end.

(** [row.get(key, default)] *)
Definition get_value (row : series) (key : string) (default : pyvalue)
  : pyvalue :=
  match lookup row key with
  | Some x => item_value x
  | None => default
  end.

Record dataframe : Type := {
  columns : list string;
  data : list (list cell)
}.

(** What [pd.read_csv] does with a file: it raises, or returns a frame. *)
Inductive read_result : Type :=
| ReadError
| Frame (df : dataframe).

Record file : Type := {
  filename : string;
  read_csv : read_result
}.

Inductive console_line : Type :=
| NoCsvFiles
| ErrorReading (file_name : string)
| Loaded (n_products n_stores : nat).

Fixpoint rfind_dot (p : string) : option nat :=
  match p with
  | EmptyString => None
  | String c p' =>
      match rfind_dot p' with
      | Some i => Some (S i)
      | None => if Ascii.eqb c "."%char then Some 0 else None
      end
  end.

Fixpoint all_dots (p : string) : bool :=
  match p with
  | EmptyString => true
  | String c p' => Ascii.eqb c "."%char && all_dots p'
  end.

(** [os.path.splitext(p)[0]] for a name without directory part: cut at
    the last dot unless only dots come before it. *)
Definition splitext_root (p : string) : string :=
  match rfind_dot p with
  | Some i =>
      let root := String.substring 0 i p in
      if all_dots root then p else root
  | None => p
  end.

Definition is_csv (f : file) : bool := endswith (filename f) ".csv".

(** A row that carries both required keys. *)
Definition supplies_both (row : series) : bool :=
  has_key row "name" && has_key row "price".

(** [float(row['price'])] returns. *)
Definition converts (row : series) : bool :=
  match lookup row "price" with
  | Some x => match item_float x with Some _ => true | None => false end
  | None => false
  end.

(** The identifiers of [l] are 1, 2, ..., [len(l)] in this order. *)
Definition dense (l : list product) : Prop :=
  map product_id l = seq 1 (length l).

(** The file [f], read as the frame [df] cut down to the rows [kept]. *)
Definition with_rows (f : file) (df : dataframe) (kept : list (list cell))
  : file :=
  {| filename := filename f;
     read_csv := Frame {| columns := columns df; data := kept |} |}.

Section Loader.
Variable T : text_ops.

(** [str(x)] for a Series [x] of several cells, as pandas prints it: it
    is given the number of the row, the label and the cells. *)
Variable str_of_series : nat -> string -> list cell -> string.

(** [str(x)] for [x = row[key]] in the row number [index] *)
Definition item_str (index : nat) (key : string) (x : item) : string :=
  match x with
  | Scalar v => as_str v
  | SubSeries vs => str_of_series index key vs
  end.

(** [str(row.get(key, default))] *)
Definition get_str (index : nat) (row : series) (key default : string)
  : string :=
  match lookup row key with
  | Some x => item_str index key x
  | None => default
  end.

(** [df.columns.str.lower().str.strip()] *)
Definition normalize_columns (df : dataframe) : dataframe :=
  {| columns := map (fun label => str_strip T (str_lower T label)) (columns df);
     data := data df |}.

(** [df.iterrows()], without the index *)
Definition iterrows (df : dataframe) : list series :=
  map (fun cells => combine (columns df) cells) (data df).

(** The dict literal of the loop body for the row number [index];
    [None] when [float(row['price'])] raises (or a required key is
    missing). *)
Definition make_product (products_list : list product) (store_name : string)
    (index : nat) (row : series) : option product :=
  match lookup row "name", lookup row "price" with
  | Some n, Some p =>
      match item_float p with
      | Some x =>
          Some {| product_id := length products_list + 1;
                  name := str_strip T (item_str index "name" n);
                  category :=
                    str_lower T (get_str index row "category" "unknown");
                  store := store_name;
                  price := x;
                  currency := "₹";
                  url := get_str index row "url" "#";
                  rating := get_value row "rating" (VStr "4.0");
                  brand := str_title T (get_str index row "brand" "Generic");
                  model_id := get_str index row "model_id" "N/A";
                  stock := get_str index row "stock" "In Stock";
                  discount_percent := get_value row "discount_percent" (VInt 0);
                  description :=
                    get_str index row "description" "No description available.";
                  image_url := get_str index row "image_url" "" |}
      | None => None
      end
  | _, _ => None
  end.

(** The [for _, row in df.iterrows()] loop from the row number [index]
    on.  The boolean tells whether the loop ran to its end ([true]) or an
    exception left it ([false]); the list is [products_list] as the loop
    leaves it. *)
Fixpoint load_rows (store_name : string) (index : nat) (rows : list series)
    (products_list : list product) : list product * bool :=
  match rows with
  | [] => (products_list, true)
  | row :: rest =>
      if negb (has_key row "name") || negb (has_key row "price")
      then load_rows store_name (S index) rest products_list
      else match make_product products_list store_name index row with
           | Some p =>
               load_rows store_name (S index) rest (products_list ++ [p])
           | None => (products_list, false)
           end
  end.

(** The body of the [try] block for one file: [products_list] as the
    block leaves it, and whether it ran to its end. *)
Definition try_file (f : file) (products_list : list product)
  : list product * bool :=
  let store_name := str_title T (splitext_root (filename f)) in
  match read_csv f with
  | ReadError => (products_list, false)
  | Frame df =>
      load_rows store_name 0 (iterrows (normalize_columns df)) products_list
  end.

(** One turn of [for filename in csv_files]: the [try] block, and the
    handler that prints the failure. *)
Definition load_file (f : file)
    (state : list product * list console_line)
  : list product * list console_line :=
  let '(products_list, console) := state in
  match try_file f products_list with
  | (products_list', true) => (products_list', console)
  | (products_list', false) =>
      (products_list', console ++ [ErrorReading (filename f)])
  end.

(** [load_product_database]; [listing] is [os.listdir(DATASETS_FOLDER)]
    with what reading each file gives.  Returns [products_list] and the
    lines printed. *)
Definition load_product_database (listing : list file)
  : list product * list console_line :=
  let csv_files := List.filter is_csv listing in
  match csv_files with
  | [] => ([], [NoCsvFiles])
  | _ :: _ =>
      let '(products_list, console) :=
        fold_left (fun state f => load_file f state) csv_files ([], []) in
      (products_list,
       console ++ [Loaded (length products_list) (length csv_files)])
  end.

(** The rows [iterrows] yields for a file; none when reading it fails. *)
Definition rows_of (f : file) : list series :=
  match read_csv f with
  | ReadError => []
  | Frame df => iterrows (normalize_columns df)
  end.

(** A source directory in which every price of a row with both keys
    converts to a float. *)
Definition valid_listing (listing : list file) : bool :=
  forallb
    (fun f => forallb (fun row => implb (supplies_both row) (converts row))
                (rows_of f))
    (List.filter is_csv listing).

End Loader.

End Catalog.

(** ** Matching and ranking *)

Module Search.
Import PyStr PyFloat Catalog.

(** [list.sort(key=lambda x: x['price'])].  The method compares keys
    with [<] only and is stable; where [<] orders the keys, that is when
    no key is NaN, this determines its result, which is the list below.
    With a NaN among the keys the result of the method depends on the
    steps its algorithm takes and need not be this one; it is still a
    rearrangement of the list, which is all that is used of it then. *)
Fixpoint insert_by_price (p : product) (sorted : list product) : list product :=
  match sorted with
  | [] => [p]
  | q :: rest =>
      if lt (price q) (price p)
      then q :: insert_by_price p rest
      else p :: q :: rest
  end.

Fixpoint sort_by_price (l : list product) : list product :=
  match l with
  | [] => []
  | p :: rest => insert_by_price p (sort_by_price rest)
  end.

(** [p] is not dearer than [q]. *)
Definition by_price (p q : product) : Prop := le (price p) (price q) = true.

(** The [if matches:] block: the sorted matches and [global_best_price]. *)
Definition rank (matches : list product) : list product * option pyfloat :=
  match matches with
  | [] => ([], None)
  | _ :: _ =>
      let matches' := sort_by_price matches in
      (matches',
       match matches' with
       | first :: _ => Some (price first)
       | [] => None
       end)
  end.

Section Matching.
Variable T : text_ops.

(** [cat_match] of the loop body *)
Definition cat_match (ai_category_prediction : string) (p : product) : bool :=
  let p_cat := str_lower T (category p) in
  contains p_cat (str_lower T ai_category_prediction)
  || contains (str_lower T ai_category_prediction) p_cat.

(** The text the keywords are looked up in. *)
Definition target_str (p : product) : string :=
  str_lower T (name p ++ " " ++ brand p ++ " " ++ category p).

(** [key_match] of the loop body; the [for ... break] loop is an
    existential over the words. *)
Definition key_match (keywords : string) (p : product) : bool :=
  if truthy keywords
  then existsb (fun word => truthy word && contains (target_str p) word)
         (str_split T keywords)
  else false.

Definition selected (ai_category_prediction keywords : string) (p : product)
  : bool :=
  if truthy keywords
  then key_match keywords p
  else cat_match ai_category_prediction p.

(** The [for product in PRODUCT_DATABASE] loop. *)
Definition find_matches (database : list product)
    (ai_category_prediction keywords : string) : list product :=
  List.filter (selected ai_category_prediction keywords) database.

(** [request.form.get('keywords', '').lower().strip()] *)
Definition form_keywords (raw : string) : string :=
  str_strip T (str_lower T raw).

(** The match-and-rank part of [process]. *)
Definition process (database : list product)
    (ai_category_prediction raw_keywords : string)
  : list product * option pyfloat :=
  let keywords := form_keywords raw_keywords in
  rank (find_matches database ai_category_prediction keywords).

End Matching.

End Search.

(** ** Where a record of the catalog comes from *)

Module Provenance.
Import PyStr Catalog.

Section Origin.
Variable T : text_ops.
Variable str_of_series : nat -> string -> list cell -> string.

(** The record [p] is what the loop body builds, for some length of
    [products_list], from a row of [rows] that has both required keys,
    [rows] being the rows of a frame from the row number [index] on. *)
Definition made_from (store_name : string) (index : nat) (rows : list series)
    (p : product) : Prop :=
  exists (i : nat) (row : series) (acc : list product),
    rows !! i = Some row /\ supplies_both row = true
    /\ make_product T str_of_series acc store_name (index + i) row = Some p.

(** The record [p] comes from a CSV file of the listing. *)
Definition from_listing (listing : list file) (p : product) : Prop :=
  exists f : file,
    In f listing /\ is_csv f = true
    /\ made_from (str_title T (splitext_root (filename f))) 0
         (rows_of T f) p.

End Origin.

End Provenance.

(** ** Accounts: the users file, registration, guards, logout, history *)

Module Accounts.
Import PyStr.

(** What [USERS_FILE] holds: nothing, a JSON object of accounts, or bytes
    that [open]/[json.load] fail on. *)
Inductive users_file : Type :=
| NoUsersFile
| UsersJson (users : gmap string Auth.user)
| UsersUnreadable.

(** [load_users] *)
Definition load_users (f : users_file) : gmap string Auth.user :=
  match f with
  | UsersJson users => users
  | NoUsersFile => ∅
  | UsersUnreadable => ∅    (* except: return {} *)
  end.

(** The users file with the way rewriting it goes. *)
Record users_disk : Type := {
  users_json : users_file;
  users_writable : ActivityLog.write_mode
}.

(** What [save_users] leaves, and whether it returned. *)
Inductive save_outcome : Type :=
| Saved (u : users_disk)
| SaveRaised (u : users_disk).

(** [save_users] *)
Definition save_users (u : users_disk) (users : gmap string Auth.user)
  : save_outcome :=
  match users_writable u with
  | ActivityLog.CanWrite =>
      Saved {| users_json := UsersJson users;
               users_writable := ActivityLog.CanWrite |}
  | ActivityLog.OpenRaises => SaveRaised u
  | ActivityLog.DumpRaises =>
      SaveRaised {| users_json := UsersUnreadable;
                    users_writable := ActivityLog.DumpRaises |}
  end.

Section WithDigest.
Variable T : text_ops.
Variable sha256 : string -> list ascii.

(** [init_users], from what [load_users()] returned: [Some] of the store
    it saves, [None] when it saves nothing.  The admin record has no
    ['searches'] key. *)
Definition init_users (users : gmap string Auth.user)
    (entropy : list ascii) (now : string) : option (gmap string Auth.user) :=
  if Nat.eqb (size users) 0 then
    Some (<["admin@epc.com" :=
             {| Auth.username := "admin";
                Auth.password := Auth.hash_password sha256 entropy "admin123";
                Auth.full_name := "System Administrator";
                Auth.role := "admin";
                Auth.created_at := now;
                Auth.last_login := None;
                Auth.uploads_count := 0;
                Auth.searches := None |}]> users)
  else None.

(** The users file after [init_users] ran (the write succeeding). *)
Definition init_users_file (f : users_file) (entropy : list ascii)
    (now : string) : users_file :=
  match init_users (load_users f) entropy now with
  | Some saved => UsersJson saved
  | None => f
  end.

Inductive page : Type := RegisterPage | LoginPage | IndexPage.

(** What one POST to [/register] does. *)
Inductive register_outcome : Type :=
| Refused (message category : string) (target : page)
    (* flash(message, category); redirect(target); nothing is written *)
| Registered (saved : gmap string Auth.user)
    (journal_actor journal_action journal_details : string)
    (message category : string) (target : page).
    (* save_users(saved); log_activity(...); flash(...); redirect(target) *)

(** The POST branch of [register]; [users] is what [load_users()] returns,
    [entropy] the random bytes of the salt, [now] the formatted clock. *)
Definition register (users : gmap string Auth.user)
    (form_email form_username form_full_name form_password
       form_confirm_password : string)
    (entropy : list ascii) (now : string) : register_outcome :=
  let email := str_lower T (str_strip T form_email) in
  let username := str_strip T form_username in
  let full_name := str_strip T form_full_name in
  let password := form_password in
  let confirm_password := form_confirm_password in
  if negb (forallb truthy [email; username; full_name; password]) then
    Refused "All fields are required" "danger" RegisterPage
  else if negb (String.eqb password confirm_password) then
    Refused "Passwords do not match" "danger" RegisterPage
  else if Nat.ltb (len password) 6 then
    Refused "Password must be at least 6 characters" "danger" RegisterPage
  else
    match users !! email with
    | Some _ => Refused "Email already registered" "danger" RegisterPage
    | None =>
        Registered
          (<[email :=
               {| Auth.username := username;
                  Auth.password := Auth.hash_password sha256 entropy password;
                  Auth.full_name := full_name;
                  Auth.role := "user";
                  Auth.created_at := now;
                  Auth.last_login := None;
                  Auth.uploads_count := 0;
                  Auth.searches := Some [] |}]> users)
          email "REGISTER" ("New user: " ++ username)
          "Registration successful! Please login" "success" LoginPage
    end.

(** A stored password of the form [hash_password] produces, and a store
    in which every account has one. *)
Definition salted (u : Auth.user) : Prop :=
  exists (entropy : list ascii) (password : string),
    Auth.password u = Auth.hash_password sha256 entropy password.

Definition well_formed (users : gmap string Auth.user) : Prop :=
  forall (email : string) (u : Auth.user), users !! email = Some u -> salted u.

(** What a POST to [/login] leaves and answers: the users file, the
    journal and the console, the session and the flashed message with the
    page redirected to; or, when an exception left the handler, the files
    and the console as they are then. *)
Inductive login_reply : Type :=
| Replied (u : users_disk) (d : ActivityLog.disk) (console : list string)
    (session : option Auth.session) (message category : string)
    (target : Auth.endpoint)
| ServerError (u : users_disk) (d : ActivityLog.disk) (console : list string).

(** The POST branch of [login] with its writes: [now] is the clock read
    for [last_login], [log_now] the clock read by [log_activity]. *)
Definition login_request (u : users_disk) (d : ActivityLog.disk)
    (console : list string) (session : option Auth.session)
    (form_email form_password now log_now remote_addr : string)
  : login_reply :=
  match Auth.login T sha256 (load_users (users_json u)) form_email
          form_password now remote_addr with
  | Auth.Rejected message category target =>
      Replied u d console session message category target
  | Auth.Crashed => ServerError u d console
  | Auth.Accepted saved s actor act details message category target =>
      match save_users u saved with
      | SaveRaised u' => ServerError u' d console
      | Saved u' =>
          match ActivityLog.log_activity d console log_now actor act details
                  remote_addr with
          | ActivityLog.Raised d' console' => ServerError u' d' console'
          | ActivityLog.Returned d' console' =>
              Replied u' d' console' (Some s) message category target
          end
      end
  end.

End WithDigest.

(** What a guarded view does: the guard answers itself, or the view runs. *)
Inductive guarded (A : Type) : Type :=
| Denied (message category : string) (target : page)
| Allowed (result : A).
Arguments Denied {A} message category target.
Arguments Allowed {A} result.

(** [login_required]; the session is [None] when it has no
    ['user_email'] key, and [view] is what the wrapped function returns. *)
Definition login_required {A : Type} (view : A)
    (session : option Auth.session) : guarded A :=
  match session with
  | None => Denied "⚠️ Please login to access this page" "warning" LoginPage
  | Some _ => Allowed view
  end.

(** [admin_required]; [users] is what [load_users()] returns. *)
Definition admin_required {A : Type} (view : A)
    (session : option Auth.session) (users : gmap string Auth.user)
  : guarded A :=
  match session with
  | None => Denied "⚠️ Please login to access this page" "warning" LoginPage
  | Some s =>
      match users !! Auth.user_email s with
      | None => Denied "🔒 Admin access required" "danger" IndexPage
      | Some u =>
          if negb (String.eqb (Auth.role u) "admin")
          then Denied "🔒 Admin access required" "danger" IndexPage
          else Allowed view
      end
  end.

(** What a request to [/logout] leaves: the session, the journal and the
    console, and the answer, unless the journal call raised. *)
Inductive logout_outcome : Type :=
| LoggedOut (session : option Auth.session) (d : ActivityLog.disk)
    (console : list string) (message category : string) (target : page)
| LogoutRaised (session : option Auth.session) (d : ActivityLog.disk)
    (console : list string).

(** [logout] *)
Definition logout (session : option Auth.session) (d : ActivityLog.disk)
    (console : list string) (now remote_addr : string) : logout_outcome :=
  match session with
  | Some s =>
      match ActivityLog.log_activity d console now (Auth.user_email s)
              "LOGOUT" "User logged out" remote_addr with
      | ActivityLog.Returned d' console' =>
          LoggedOut None d' console' "You have been logged out" "info" IndexPage
      | ActivityLog.Raised d' console' => LogoutRaised session d' console'
      end
  | None => LoggedOut None d console "You have been logged out" "info" IndexPage
  end.

Definition set_searches (history : list Auth.search_entry) (u : Auth.user)
  : Auth.user :=
  {| Auth.username := Auth.username u; Auth.password := Auth.password u;
     Auth.full_name := Auth.full_name u; Auth.role := Auth.role u;
     Auth.created_at := Auth.created_at u; Auth.last_login := Auth.last_login u;
     Auth.uploads_count := Auth.uploads_count u;
     Auth.searches := Some history |}.

(** [user_data.get('searches', [])] *)
Definition history (u : Auth.user) : list Auth.search_entry :=
  match Auth.searches u with
  | Some l => l
  | None => []
  end.

(** The "update user search history" block of [process]: [Some] of the
    store it saves, [None] when the email has no account and nothing is
    saved. *)
Definition record_search (users : gmap string Auth.user)
    (email now ai_category_prediction keywords : string)
    (n_matches : nat) (unique_filename : string)
  : option (gmap string Auth.user) :=
  match users !! email with
  | Some u =>
      let searches := history u in
      let searches :=
        searches ++ [ {| Auth.search_timestamp := now;
                         Auth.search_category := ai_category_prediction;
                         Auth.search_keywords := keywords;
                         Auth.matches_count := n_matches;
                         Auth.image := unique_filename |} ] in
      let searches := drop (length searches - 50) searches in   (* [-50:] *)
      Some (<[email := set_searches searches u]> users)
  | None => None
  end.

(** The same block run once per element of [entries], each save feeding
    the next load. *)
Fixpoint record_searches (users : gmap string Auth.user) (email : string)
    (entries : list Auth.search_entry) : gmap string Auth.user :=
  match entries with
  | [] => users
  | e :: rest =>
      match record_search users email (Auth.search_timestamp e)
              (Auth.search_category e) (Auth.search_keywords e)
              (Auth.matches_count e) (Auth.image e) with
      | Some saved => record_searches saved email rest
      | None => record_searches users email rest
      end
  end.

(** The statistics of [profile]: [total_searches] and [recent_searches]. *)
Definition profile_stats (users : gmap string Auth.user) (email : string)
  : nat * list Auth.search_entry :=
  let searches :=
    match users !! email with
    | Some user_data => history user_data
    | None => []
    end in
  let total_searches := length searches in
  if Nat.ltb 0 total_searches
  then (total_searches, rev (drop (length searches - 5) searches))
  else (total_searches, []).

(** [u.get('last_login')] as a truth value *)
Definition has_logged_in (u : Auth.user) : bool :=
  match Auth.last_login u with
  | Some t => truthy t
  | None => false
  end.

(** The counters of [index]: [total_users] and [active_users]. *)
Definition index_stats (users : gmap string Auth.user) : nat * nat :=
  (size users,
   length (List.filter has_logged_in (map snd (map_to_list users)))).

End Accounts.

(** ** Sample data used by the examples below *)

Module Samples.
Import PyStr PyFloat Auth ActivityLog Catalog Search.

(** A stand-in for SHA-256 that returns the bytes of its argument. *)
Definition toy_sha256 (text : string) : list ascii :=
  list_ascii_of_string text.

Definition toy_entropy : list ascii := ["k"%char; "7"%char].

Definition ann : Auth.user :=
  {| username := "ann"; password := hash_password toy_sha256 toy_entropy "secret";
     full_name := "Ann Lee"; role := "user";
     created_at := "2025-01-01 10:00:00"; last_login := None;
     uploads_count := 0; searches := Some [] |}.

Definition one_user : gmap string Auth.user := {[ "ann@shop.io" := ann ]}.

Definition call (n : nat) : log_entry :=
  {| timestamp := "2025-01-01 10:00:00"; user := "ann@shop.io";
     action := "SEARCH"; details := string_of_list_ascii [ascii_of_nat n];
     ip := "127.0.0.1" |}.

Definition calls (n : nat) : list log_entry := map call (seq 0 n).

Definition read_only_disk : disk :=
  {| logs_file := Journal [call 0]; writable := OpenRaises |}.

(** A stand-in for the text pandas prints for a Series of several
    cells. *)
Definition series_text (index : nat) (key : string) (cs : list cell)
  : string :=
  String.concat " " (key :: map as_str cs).

Definition text (s : string) : cell := {| as_str := s; as_float := None |}.

Definition number (s : string) (q : Q) : cell :=
  {| as_str := s; as_float := Some (Fin q) |}.

Definition blank : cell := {| as_str := "nan"; as_float := Some NaN |}.

(** Name,Price ,brand / Lamp,10.0,acme / Desk,abc,acme / Sofa,5.0,acme *)
Definition shop_frame : dataframe :=
  {| columns := ["Name"; "Price "; "brand"];
     data := [ [text "Lamp"; number "10.0" 10; text "acme"];
               [text "Desk"; text "abc"; text "acme"];
               [text "Sofa"; number "5.0" 5; text "acme"] ] |}.

Definition shop_csv : file :=
  {| filename := "shop.csv"; read_csv := Frame shop_frame |}.

Definition mart_csv : file :=
  {| filename := "mart.csv";
     read_csv :=
       Frame {| columns := ["name"; "price"; "category"];
                data := [ [text "Phone A"; number "999.99" (99999 # 100);
                           text "Smartphone"];
                          [text "Phone B"; number "849.99" (84999 # 100);
                           text "smartphone"] ] |} |}.

(** A file without a price column. *)
Definition notes_csv : file :=
  {| filename := "notes.csv";
     read_csv :=
       Frame {| columns := ["name"; "comment"];
                data := [ [text "Lamp"; text "nice"] ] |} |}.

(** name,price / Lamp,(empty) *)
Definition gaps_csv : file :=
  {| filename := "gaps.csv";
     read_csv :=
       Frame {| columns := ["name"; "price"];
                data := [ [text "Lamp"; blank] ] |} |}.

Definition broken_csv : file :=
  {| filename := "broken.csv"; read_csv := ReadError |}.

Definition readme : file :=
  {| filename := "README.md"; read_csv := ReadError |}.

Definition item (i : nat) (n b c : string) (x : Q) : product :=
  {| product_id := i; name := n; category := c; store := "Mart";
     price := Fin x; currency := "₹"; url := "#"; rating := VStr "4.0";
     brand := b; model_id := "N/A"; stock := "In Stock";
     discount_percent := VInt 0;
     description := "No description available."; image_url := "" |}.

Definition phones : list product :=
  [ item 1 "Phone A" "Generic" "smartphone" (99999 # 100);
    item 2 "Phone B" "Generic" "smartphone" (84999 # 100);
    item 3 "Nike Air Max 270" "Nike" "shoes" 150;
    item 4 "Phone C" "Generic" "phone" (84999 # 100) ].

Definition ab_cd : product := item 1 "ab" "Cd" "x" 10.

End Samples.

(** ** More sample data *)

Module Fixtures.
Import PyStr PyFloat Auth ActivityLog Catalog Search Accounts.

Definition bob : Auth.user :=
  {| username := "bob";
     password := hash_password Samples.toy_sha256 Samples.toy_entropy "hunter22";
     full_name := "Bob Ray"; role := "user";
     created_at := "2025-02-01 08:00:00"; last_login := None;
     uploads_count := 0; searches := Some [] |}.

(** The store after bob registered. *)
Definition two_users : gmap string Auth.user :=
  <["bob@shop.io" := bob]> Samples.one_user.

Definition bob_session : Auth.session :=
  {| user_email := "bob@shop.io"; user_name := "bob";
     session_full_name := "Bob Ray"; session_role := "user";
     permanent := true |}.

(** The store after bob logged in. *)
Definition two_users_later : gmap string Auth.user :=
  <["bob@shop.io" := set_last_login "2025-02-02 09:00:00" bob]> two_users.

Definition searched (n : nat) : search_entry :=
  {| search_timestamp := "2025-02-03 10:00:00";
     search_category := "Running Shoe";
     search_keywords := "nike";
     matches_count := n;
     image := "photo.jpg" |}.

Definition searches_of (n : nat) : list search_entry := map searched (seq 0 n).

Definition open_disk : disk :=
  {| logs_file := Journal (Samples.calls 2); writable := CanWrite |}.

(** A journal file on which the writing fails after the file was opened. *)
Definition full_disk : disk :=
  {| logs_file := Journal (Samples.calls 2); writable := DumpRaises |}.

(** A file with two price columns: Name,price,Price / Lamp,10.0,12.0 *)
Definition dup_csv : file :=
  {| filename := "dup.csv";
     read_csv :=
       Frame {| columns := ["Name"; "price"; "Price"];
                data := [ [Samples.text "Lamp"; Samples.number "10.0" 10;
                           Samples.number "12.0" 12] ] |} |}.

(** A file with an empty price cell: name,price / Lamp, / Desk Lamp,5.0 *)
Definition lamps_csv : file :=
  {| filename := "lamps.csv";
     read_csv :=
       Frame {| columns := ["name"; "price"];
                data := [ [Samples.text "Lamp"; Samples.blank];
                          [Samples.text "Desk Lamp";
                           Samples.number "5.0" 5] ] |} |}.

(** The catalog loaded from that file. *)
Definition lamp (i : nat) (n : string) (x : pyfloat) : product :=
  {| product_id := i; name := n; category := "unknown"; store := "Lamps";
     price := x; currency := "₹"; url := "#"; rating := VStr "4.0";
     brand := "Generic"; model_id := "N/A"; stock := "In Stock";
     discount_percent := VInt 0;
     description := "No description available."; image_url := "" |}.

Definition lamps : list product :=
  [ lamp 1 "Lamp" NaN; lamp 2 "Desk Lamp" (Fin 5) ].

End Fixtures.

(** * Properties *)

(** ** Text operations *)

Section TextFacts.
Import PyStr.

Lemma split_on_absent (sep : ascii) (s : string) :
  occurs sep s = false -> split_on sep s = [s].
Proof.
  induction s as [|c s IH]; simpl; intros H; [reflexivity|].
  apply orb_false_iff in H as [Hc Hs].
  rewrite Hc, (IH Hs). reflexivity.
Qed.

Lemma split_on_first (sep : ascii) (a b : string) :
  occurs sep a = false ->
  split_on sep (a ++ String sep b) = a :: split_on sep b.
Proof.
  induction a as [|c a IH]; simpl; intros H.
  - rewrite Ascii.eqb_refl. reflexivity.
  - apply orb_false_iff in H as [Hc Ha].
    rewrite Hc, (IH Ha). reflexivity.
Qed.

End TextFacts.

(** ** Passwords and login *)

Section AuthFacts.
Import PyStr Auth.

Variable T : text_ops.
Variable sha256 : string -> list ascii.

Lemma hex_digit_not_colon (b : ascii) :
  Ascii.eqb (hex_digit (code b / 16)) ":" = false
  /\ Ascii.eqb (hex_digit (code b mod 16)) ":" = false.
Proof.
  destruct b as [[] [] [] [] [] [] [] []]; vm_compute; split; reflexivity.
Qed.

(** The hexadecimal encoding never contains the separator. *)
Lemma hex_no_colon (bytes : list ascii) : occurs ":" (hex bytes) = false.
Proof.
  induction bytes as [|b bytes IH]; [reflexivity|].
  cbn [hex occurs].
  destruct (hex_digit_not_colon b) as [-> ->]. exact IH.
Qed.

Lemma split_stored (entropy : list ascii) (password : string) :
  split_on ":" (hash_password sha256 entropy password)
  = [hex entropy; hexdigest sha256 (hex entropy ++ password)%string].
Proof.
  unfold hash_password. cbn zeta.
  change (split_on ":"
            (hex entropy
             ++ String ":" (hexdigest sha256 (hex entropy ++ password)))%string
          = [hex entropy; hexdigest sha256 (hex entropy ++ password)%string]).
  rewrite split_on_first by apply hex_no_colon.
  rewrite split_on_absent by apply hex_no_colon.
  reflexivity.
Qed.

(** C10. Whatever the password and whatever bytes the salt is drawn
    from, checking the password against the stored form that hashing it
    produced succeeds: [verify_password (hash_password p) p] is [True]. *)
Theorem verify_hash_password (entropy : list ascii) (password : string) :
  verify_password sha256 (hash_password sha256 entropy password) password
  = Some true.
Proof.
  unfold verify_password. rewrite split_stored.
  rewrite String.eqb_refl. reflexivity.
Qed.

(** C9. When both fields are filled in, a login with an email that has
    no account and a login with a registered email whose password does
    not verify end in the very same outcome: the message
    "Invalid email or password", category "danger", a redirect to the
    login page, and nothing written. *)
Theorem login_failures_identical (users : gmap string user)
    (email1 password1 email2 password2 now1 now2 addr1 addr2 : string)
    (u : user) :
  truthy (str_lower T (str_strip T email1)) = true ->
  truthy password1 = true ->
  truthy (str_lower T (str_strip T email2)) = true ->
  truthy password2 = true ->
  users !! str_lower T (str_strip T email1) = None ->
  users !! str_lower T (str_strip T email2) = Some u ->
  verify_password sha256 (password u) password2 = Some false ->
  login T sha256 users email1 password1 now1 addr1
    = Rejected "Invalid email or password" "danger" LoginPage
  /\ login T sha256 users email2 password2 now2 addr2
    = login T sha256 users email1 password1 now1 addr1.
Proof.
  intros He1 Hp1 He2 Hp2 Hunknown Hknown Hwrong.
  unfold login. rewrite He1, He2, Hp1, Hp2. simpl.
  rewrite Hunknown, Hknown, Hwrong. split; reflexivity.
Qed.

End AuthFacts.

Lemma login_failures_identical_witness :
  PyStr.truthy (AsciiText.lower (AsciiText.strip "bob@shop.io")) = true
  /\ Samples.one_user !! AsciiText.lower (AsciiText.strip "bob@shop.io") = None
  /\ Samples.one_user !! AsciiText.lower (AsciiText.strip " Ann@Shop.io")
     = Some Samples.ann
  /\ Auth.verify_password Samples.toy_sha256 (Auth.password Samples.ann) "wrong"
     = Some false
  /\ Auth.login AsciiText.ops Samples.toy_sha256 Samples.one_user
       "bob@shop.io" "secret"
       "2025-01-02 09:00:00" "10.0.0.1"
     = Auth.Rejected "Invalid email or password" "danger" Auth.LoginPage
  /\ Auth.login AsciiText.ops Samples.toy_sha256 Samples.one_user
       " Ann@Shop.io" "wrong"
       "2025-01-02 09:05:00" "10.0.0.2"
     = Auth.login AsciiText.ops Samples.toy_sha256 Samples.one_user
         "bob@shop.io" "secret"
         "2025-01-02 09:00:00" "10.0.0.1".
Proof.
  assert (H1 : PyStr.truthy (AsciiText.lower (AsciiText.strip "bob@shop.io")) = true)
    by reflexivity.
  assert (H2 : Samples.one_user !! AsciiText.lower (AsciiText.strip "bob@shop.io")
               = None)
    by (vm_compute; reflexivity).
  assert (H3 : Samples.one_user !! AsciiText.lower (AsciiText.strip " Ann@Shop.io")
               = Some Samples.ann)
    by (vm_compute; reflexivity).
  assert (H4 : Auth.verify_password Samples.toy_sha256
                 (Auth.password Samples.ann) "wrong" = Some false)
    by (vm_compute; reflexivity).
  repeat (split; [assumption|]).
  apply (login_failures_identical AsciiText.ops Samples.toy_sha256
           Samples.one_user
           "bob@shop.io" "secret" " Ann@Shop.io" "wrong"
           "2025-01-02 09:00:00" "2025-01-02 09:05:00" "10.0.0.1" "10.0.0.2"
           Samples.ann);
    first [assumption | reflexivity].
Defined.

(** ** The activity journal *)

Section JournalFacts.
Import ActivityLog.

(** The last [n] elements of a list, as the slice [l[-n:]]. *)
Lemma keep_last_drop (l : list log_entry) :
  keep_last l = drop (length l - 1000) l.
Proof.
  unfold keep_last. destruct (Nat.ltb_spec 1000 (length l)) as [H|H].
  - reflexivity.
  - replace (length l - 1000) with 0 by lia. reflexivity.
Qed.

Lemma keep_last_app (a b : list log_entry) :
  keep_last (keep_last a ++ b) = keep_last (a ++ b).
Proof.
  rewrite !keep_last_drop.
  rewrite !length_app, length_drop.
  rewrite !drop_app, drop_drop, length_drop.
  f_equal; f_equal; lia.
Qed.

Lemma log_activity_returns (logs : list log_entry) (console : list string)
    (c : log_entry) :
  log_activity {| logs_file := Journal logs; writable := CanWrite |} console
    (timestamp c) (user c) (action c) (details c) (ip c)
  = Returned {| logs_file := Journal (keep_last (logs ++ [c]));
                writable := CanWrite |} (console ++ [console_line c]).
Proof. destruct c. reflexivity. Qed.

Lemma log_all_from_kept (calls logs : list log_entry) (console : list string) :
  log_all {| logs_file := Journal (keep_last logs); writable := CanWrite |}
    console calls
  = Returned {| logs_file := Journal (keep_last (logs ++ calls));
                writable := CanWrite |} (console ++ map console_line calls).
Proof.
  revert logs console.
  induction calls as [|c calls IH]; intros logs console.
  - cbn [log_all map]. rewrite !app_nil_r. reflexivity.
  - cbn [log_all map]. rewrite log_activity_returns, keep_last_app.
    rewrite IH. rewrite <- !app_assoc. reflexivity.
Qed.

(** C8. Starting from any stored journal, after a non-empty run of
    record operations that brings the number of entries above 1000, the
    journal holds exactly 1000 entries: the last 1000 of the old entries
    followed by the new ones, in their order. *)
Theorem journal_keeps_last_1000 (logs calls : list log_entry)
    (console : list string) :
  calls <> [] ->
  1000 < length (logs ++ calls) ->
  exists kept,
    log_all {| logs_file := Journal logs; writable := CanWrite |} console calls
    = Returned {| logs_file := Journal kept; writable := CanWrite |}
        (console ++ map console_line calls)
    /\ kept = drop (length (logs ++ calls) - 1000) (logs ++ calls)
    /\ length kept = 1000.
Proof.
  intros Hcalls Hlen. destruct calls as [|c calls]; [congruence|].
  exists (keep_last (logs ++ c :: calls)). split; [|split].
  - cbn [log_all map]. rewrite log_activity_returns, log_all_from_kept.
    rewrite <- !app_assoc. reflexivity.
  - apply keep_last_drop.
  - rewrite keep_last_drop, length_drop. lia.
Qed.

(** C7 (as amended). A record operation returns exactly when the
    journal file can be rewritten, whatever reading it gave (no file, a
    stored list, unreadable bytes): a failure while reading is swallowed
    without any message, and an unreadable journal is restarted from the
    new entry alone.  A failure while rewriting is not caught: the call
    raises and the failure reaches the caller.  In every case the console
    receives the activity line of the call and nothing else. *)
Theorem log_activity_outcome (d : disk) (console : list string)
    (now user_email action_ details_ remote_addr : string) :
  let entry := {| timestamp := now; user := user_email; action := action_;
                  details := details_; ip := remote_addr |} in
  match log_activity d console now user_email action_ details_ remote_addr with
  | Returned d' console' =>
      writable d = CanWrite
      /\ console' = console ++ [console_line entry]
      /\ (exists logs, logs_file d' = Journal logs /\ last logs = Some entry)
      /\ (logs_file d = Unreadable -> logs_file d' = Journal [entry])
  | Raised d' console' =>
      writable d <> CanWrite
      /\ console' = console ++ [console_line entry]
  end.
Proof.
  intros entry. unfold log_activity. fold entry.
  destruct (writable d) eqn:W.
  - split; [reflexivity|]. split; [reflexivity|]. split.
    + eexists. split; [reflexivity|].
      rewrite keep_last_drop.
      rewrite drop_app_le by (rewrite length_app; simpl; lia).
      apply last_snoc.
    + intros U. cbn [logs_file]. unfold read_logs. rewrite U. reflexivity.
  - split; [discriminate|reflexivity].
  - split; [discriminate|reflexivity].
Qed.

(** C7, as stated, fails: with a journal file that cannot be opened for
    writing the call does not return. *)
Lemma log_activity_can_raise :
  log_activity Samples.read_only_disk [] "2025-01-02 09:00:00" "ann@shop.io"
    "LOGIN" "Successful login from 10.0.0.1" "10.0.0.1"
  = Raised Samples.read_only_disk
      [ "📝 [2025-01-02 09:00:00] ann@shop.io: LOGIN Successful login from 10.0.0.1" ]
  /\ ~ (exists d' console',
          log_activity Samples.read_only_disk [] "2025-01-02 09:00:00"
            "ann@shop.io" "LOGIN" "Successful login from 10.0.0.1" "10.0.0.1"
          = Returned d' console').
Proof.
  split; [reflexivity|]. intros (d' & console' & H). discriminate H.
Qed.

(** A write that fails after the file was opened: the call raises too,
    and the journal, truncated by the opening, is no longer readable. *)
Example write_failure_after_open :
  log_activity Fixtures.full_disk [] "2025-01-02 09:00:00" "ann@shop.io"
    "LOGIN" "Successful login from 10.0.0.1" "10.0.0.1"
  = Raised {| logs_file := Unreadable; writable := DumpRaises |}
      [ "📝 [2025-01-02 09:00:00] ann@shop.io: LOGIN Successful login from 10.0.0.1" ].
Proof. reflexivity. Qed.

End JournalFacts.

Lemma journal_keeps_last_1000_witness :
  Samples.calls 3 <> []
  /\ 1000 < length (Samples.calls 999 ++ Samples.calls 3)
  /\ exists kept,
       ActivityLog.log_all
         {| ActivityLog.logs_file := ActivityLog.Journal (Samples.calls 999);
            ActivityLog.writable := ActivityLog.CanWrite |} [] (Samples.calls 3)
       = ActivityLog.Returned
           {| ActivityLog.logs_file := ActivityLog.Journal kept;
              ActivityLog.writable := ActivityLog.CanWrite |}
           ([] ++ map ActivityLog.console_line (Samples.calls 3))
       /\ kept = drop (length (Samples.calls 999 ++ Samples.calls 3) - 1000)
                   (Samples.calls 999 ++ Samples.calls 3)
       /\ length kept = 1000.
Proof.
  assert (H1 : Samples.calls 3 <> []) by discriminate.
  assert (H2 : 1000 < length (Samples.calls 999 ++ Samples.calls 3))
    by (vm_compute; lia).
  split; [exact H1|]. split; [exact H2|].
  exact (journal_keeps_last_1000 (Samples.calls 999) (Samples.calls 3) [] H1 H2).
Defined.

(** ** The catalog loader *)

Section CatalogFacts.
Import PyStr PyFloat Catalog.

Variable T : text_ops.
Variable str_of_series : nat -> string -> list cell -> string.

Local Abbreviation load_product_database :=
  (Catalog.load_product_database T str_of_series).
Local Abbreviation load_file := (Catalog.load_file T str_of_series).
Local Abbreviation try_file := (Catalog.try_file T str_of_series).
Local Abbreviation load_rows := (Catalog.load_rows T str_of_series).
Local Abbreviation make_product := (Catalog.make_product T str_of_series).
Local Abbreviation normalize_columns := (Catalog.normalize_columns T).
Local Abbreviation rows_of := (Catalog.rows_of T).
Local Abbreviation valid_listing := (Catalog.valid_listing T).

(** The products a load returns, file by file. *)
Lemma load_file_products (f : file) (products_list : list product)
    (console : list console_line) :
  fst (load_file f (products_list, console)) = fst (try_file f products_list).
Proof.
  unfold Catalog.load_file. destruct (try_file f products_list) as [l []]; reflexivity.
Qed.

Lemma fold_products (files : list file) (products_list : list product)
    (console : list console_line) :
  fst (fold_left (fun state f => load_file f state) files
         (products_list, console))
  = fold_left (fun acc f => fst (try_file f acc)) files products_list.
Proof.
  revert products_list console.
  induction files as [|f files IH]; intros acc console; [reflexivity|].
  cbn [fold_left].
  destruct (load_file f (acc, console)) as [acc' console'] eqn:E.
  rewrite IH. f_equal.
  rewrite <- (load_file_products f acc console), E. reflexivity.
Qed.

Lemma load_products (listing : list file) :
  fst (load_product_database listing)
  = fold_left (fun acc f => fst (try_file f acc))
      (List.filter is_csv listing) [].
Proof.
  unfold Catalog.load_product_database.
  destruct (List.filter is_csv listing) as [|f files] eqn:E; [reflexivity|].
  rewrite <- (fold_products (f :: files) [] []).
  destruct (fold_left _ (f :: files) ([], [])) as [l c]. reflexivity.
Qed.

Lemma has_key_cells (row : series) (key : string) :
  has_key row key = true -> cells_at row key <> [].
Proof.
  unfold has_key, cells_at.
  induction row as [|[k v] row IH]; cbn; [discriminate|].
  destruct (String.eqb k key); cbn; [discriminate|exact IH].
Qed.

Lemma has_key_lookup (row : series) (key : string) :
  has_key row key = true -> exists x, lookup row key = Some x.
Proof.
  intros H. apply has_key_cells in H. unfold lookup.
  destruct (cells_at row key) as [|v [|w vs]]; [congruence|eauto..].
Qed.

Lemma make_product_id (acc : list product) (store_name : string)
    (index : nat) (row : series) (p : product) :
  make_product acc store_name index row = Some p ->
  product_id p = length acc + 1.
Proof.
  unfold Catalog.make_product.
  destruct (lookup row "name"); [|discriminate].
  destruct (lookup row "price") as [v|]; [|discriminate].
  destruct (item_float v); [|discriminate].
  intros [= <-]. reflexivity.
Qed.

Lemma make_product_converts (acc : list product) (store_name : string)
    (index : nat) (row : series) :
  supplies_both row = true ->
  (exists p, make_product acc store_name index row = Some p)
  <-> converts row = true.
Proof.
  unfold supplies_both, Catalog.make_product, converts. intros H.
  apply andb_true_iff in H as [Hn Hp].
  destruct (has_key_lookup _ _ Hn) as [n ->].
  destruct (has_key_lookup _ _ Hp) as [v ->].
  destruct (item_float v); split; intros; eauto; try discriminate.
  destruct H as [? H]; discriminate.
Qed.

(** The loop over the rows, one row at a time. *)
Lemma load_rows_skip (store_name : string) (index : nat) (row : series)
    (rows : list series) (acc : list product) :
  supplies_both row = false ->
  load_rows store_name index (row :: rows) acc
  = load_rows store_name (S index) rows acc.
Proof.
  intros H. cbn [Catalog.load_rows].
  rewrite <- negb_andb. fold (supplies_both row). rewrite H. reflexivity.
Qed.

Lemma load_rows_raise (store_name : string) (index : nat) (row : series)
    (rows : list series) (acc : list product) :
  supplies_both row = true -> converts row = false ->
  load_rows store_name index (row :: rows) acc = (acc, false).
Proof.
  intros H C. cbn [Catalog.load_rows]. rewrite <- negb_andb.
  fold (supplies_both row). rewrite H. cbn [negb].
  destruct (make_product acc store_name index row) as [p|] eqn:E;
    [|reflexivity].
  assert (converts row = true) by (eapply make_product_converts; eauto).
  congruence.
Qed.

Lemma load_rows_accept (store_name : string) (index : nat) (row : series)
    (rows : list series) (acc : list product) :
  supplies_both row = true -> converts row = true ->
  exists p, make_product acc store_name index row = Some p
            /\ load_rows store_name index (row :: rows) acc
               = load_rows store_name (S index) rows (acc ++ [p]).
Proof.
  intros H C.
  destruct (proj2 (make_product_converts acc store_name index row H) C)
    as [p E].
  exists p. split; [exact E|].
  cbn [Catalog.load_rows]. rewrite <- negb_andb.
  fold (supplies_both row). rewrite H, E. reflexivity.
Qed.

Lemma load_rows_app (store_name : string) (index : nat)
    (rows1 rows2 : list series) (acc : list product) :
  load_rows store_name index (rows1 ++ rows2) acc
  = if snd (load_rows store_name index rows1 acc)
    then load_rows store_name (index + length rows1) rows2
           (fst (load_rows store_name index rows1 acc))
    else load_rows store_name index rows1 acc.
Proof.
  revert index acc.
  induction rows1 as [|row rows1 IH]; intros index acc.
  - cbn. rewrite Nat.add_0_r. reflexivity.
  - rewrite <- app_comm_cons. cbn [length].
    replace (index + S (length rows1)) with (S index + length rows1) by lia.
    destruct (supplies_both row) eqn:Sb.
    + destruct (converts row) eqn:C.
      * destruct (load_rows_accept store_name index row (rows1 ++ rows2)
                    acc Sb C) as (p & E & ->).
        destruct (load_rows_accept store_name index row rows1 acc Sb C)
          as (p' & E' & ->).
        assert (p' = p) by congruence. subst p'. apply IH.
      * rewrite !load_rows_raise by assumption. reflexivity.
    + rewrite !load_rows_skip by assumption. apply IH.
Qed.

(** Identifiers: the list only grows, and stays numbered 1, 2, ... *)
Lemma dense_snoc (l : list product) (p : product) :
  dense l -> product_id p = length l + 1 -> dense (l ++ [p]).
Proof.
  unfold dense. intros D I.
  rewrite map_app, length_app, D. cbn [map length].
  rewrite Nat.add_1_r, seq_S, I. f_equal. f_equal. lia.
Qed.

Lemma load_rows_grows (store_name : string) (index : nat)
    (rows : list series) (acc : list product) :
  dense acc ->
  dense (fst (load_rows store_name index rows acc))
  /\ exists more, fst (load_rows store_name index rows acc) = acc ++ more.
Proof.
  revert index acc. induction rows as [|row rows IH]; intros index acc D.
  - split; [exact D|]. exists []. cbn. rewrite app_nil_r. reflexivity.
  - destruct (supplies_both row) eqn:Sb.
    + destruct (converts row) eqn:C.
      * destruct (load_rows_accept store_name index row rows acc Sb C)
          as (p & E & ->).
        destruct (IH (S index) (acc ++ [p])) as [D' [more M]].
        { apply dense_snoc; [exact D|]. eapply make_product_id; eauto. }
        split; [exact D'|]. exists (p :: more).
        rewrite M, <- app_assoc. reflexivity.
      * rewrite load_rows_raise by assumption.
        split; [exact D|]. exists []. cbn. rewrite app_nil_r. reflexivity.
    + rewrite load_rows_skip by assumption. apply IH, D.
Qed.

Lemma try_file_grows (f : file) (acc : list product) :
  dense acc ->
  dense (fst (try_file f acc)) /\ exists more, fst (try_file f acc) = acc ++ more.
Proof.
  intros D. unfold Catalog.try_file. destruct (read_csv f).
  - split; [exact D|]. exists []. cbn. rewrite app_nil_r. reflexivity.
  - apply load_rows_grows, D.
Qed.

Lemma fold_grows (files : list file) (acc : list product) :
  dense acc ->
  dense (fold_left (fun acc f => fst (try_file f acc)) files acc)
  /\ exists more,
       fold_left (fun acc f => fst (try_file f acc)) files acc = acc ++ more.
Proof.
  revert acc. induction files as [|f files IH]; intros acc D.
  - split; [exact D|]. exists []. cbn. rewrite app_nil_r. reflexivity.
  - cbn [fold_left].
    destruct (try_file_grows f acc D) as [D1 [m1 M1]].
    destruct (IH _ D1) as [D2 [m2 M2]].
    split; [exact D2|]. exists (m1 ++ m2).
    rewrite M2, M1, <- app_assoc. reflexivity.
Qed.

(** C4. The identifiers of the records a load returns are 1, 2, ..., n
    in the order of the list, which is the order in which the rows were
    accepted; the records of the files read so far are a prefix of the
    result, so the count runs on from file to file. *)
Theorem load_ids_dense (before after : list file) :
  let products := fst (load_product_database (before ++ after)) in
  map product_id products = seq 1 (length products)
  /\ List.NoDup (map product_id products)
  /\ exists more, products = fst (load_product_database before) ++ more.
Proof.
  intros products. subst products.
  rewrite !load_products, List.filter_app, fold_left_app.
  assert (D0 : dense []) by reflexivity.
  destruct (fold_grows (List.filter is_csv before) [] D0) as [D1 _].
  destruct (fold_grows (List.filter is_csv after) _ D1) as [D2 [more M]].
  split; [exact D2|]. split.
  - rewrite D2. apply List.seq_NoDup.
  - exists more. exact M.
Qed.

(** Counting the accepted rows. *)
Lemma load_rows_count (store_name : string) (index : nat)
    (rows : list series) (acc : list product) :
  forallb (fun row => implb (supplies_both row) (converts row)) rows = true ->
  snd (load_rows store_name index rows acc) = true
  /\ length (fst (load_rows store_name index rows acc))
     = length acc + length (List.filter supplies_both rows).
Proof.
  revert index acc. induction rows as [|row rows IH]; intros index acc V.
  - cbn. split; [reflexivity|lia].
  - cbn [forallb] in V. apply andb_true_iff in V as [Vrow V].
    cbn [List.filter]. destruct (supplies_both row) eqn:Sb.
    + cbn [implb] in Vrow.
      destruct (load_rows_accept store_name index row rows acc Sb Vrow)
        as (p & _ & ->).
      destruct (IH (S index) (acc ++ [p]) V) as [-> ->].
      split; [reflexivity|]. rewrite length_app. cbn [length]. lia.
    + rewrite load_rows_skip by assumption. apply IH, V.
Qed.

Lemma try_file_count (f : file) (acc : list product) :
  forallb (fun row => implb (supplies_both row) (converts row)) (rows_of f)
  = true ->
  length (fst (try_file f acc))
  = length acc + length (List.filter supplies_both (rows_of f)).
Proof.
  unfold Catalog.try_file, Catalog.rows_of. destruct (read_csv f); intros V.
  - cbn. lia.
  - apply load_rows_count, V.
Qed.

Lemma fold_count (files : list file) (acc : list product) :
  forallb
    (fun f => forallb (fun row => implb (supplies_both row) (converts row))
                (rows_of f)) files = true ->
  length (fold_left (fun acc f => fst (try_file f acc)) files acc)
  = length acc + length (List.filter supplies_both (flat_map rows_of files)).
Proof.
  revert acc. induction files as [|f files IH]; intros acc V.
  - cbn. lia.
  - cbn [forallb] in V. apply andb_true_iff in V as [Vf V].
    cbn [fold_left flat_map]. rewrite (IH _ V), (try_file_count f acc Vf).
    rewrite List.filter_app, length_app. lia.
Qed.

(** C5 (as amended). In a source directory in which every price
    converts, the load returns as many records as there are rows, over all
    the CSV files, that carry both the key "name" and the key "price", as
    every row of a frame with both columns does, empty cells included; a
    row that lacks either key is passed over, the loop going on with the
    next row and the same list. *)
Theorem load_count (listing : list file) :
  valid_listing listing = true ->
  length (fst (load_product_database listing))
  = length (List.filter supplies_both
              (flat_map rows_of (List.filter is_csv listing)))
  /\ forall (store_name : string) (index : nat) (rows : list series)
            (row : series) (acc : list product),
       supplies_both row = false ->
       load_rows store_name index (row :: rows) acc
       = load_rows store_name (S index) rows acc.
Proof.
  intros V. split.
  - rewrite load_products. apply (fold_count _ [] V).
  - intros store_name index rows row acc Sb. apply load_rows_skip, Sb.
Qed.

(** What a failing file leaves behind. *)
Lemma console_grows (files : list file)
    (state : list product * list console_line) :
  exists more,
    snd (fold_left (fun state f => load_file f state) files state)
    = snd state ++ more.
Proof.
  revert state. induction files as [|f files IH]; intros [acc console].
  - exists []. cbn. rewrite app_nil_r. reflexivity.
  - cbn [fold_left]. destruct (IH (load_file f (acc, console))) as [m ->].
    unfold Catalog.load_file. destruct (try_file f acc) as [acc' []]; cbn [snd].
    + exists m. reflexivity.
    + eexists. rewrite <- app_assoc. reflexivity.
Qed.

Lemma failure_printed (before after : list file) (f : file) :
  is_csv f = true ->
  snd (try_file f (fst (load_product_database before))) = false ->
  In (ErrorReading (filename f))
     (snd (load_product_database (before ++ f :: after))).
Proof.
  intros Hcsv Hfail. rewrite load_products in Hfail.
  unfold Catalog.load_product_database.
  rewrite List.filter_app. cbn [List.filter]. rewrite Hcsv.
  destruct (List.filter is_csv before ++ f :: List.filter is_csv after)
    as [|g files] eqn:E.
  { destruct (List.filter is_csv before); discriminate E. }
  rewrite <- E. clear E g files.
  rewrite fold_left_app. cbn [fold_left].
  rewrite <- (fold_products _ [] []) in Hfail.
  destruct (fold_left _ (List.filter is_csv before) ([], []))
    as [acc console].
  cbn [fst] in Hfail.
  assert (L : load_file f (acc, console)
              = (fst (try_file f acc), console ++ [ErrorReading (filename f)])).
  { unfold Catalog.load_file. destruct (try_file f acc) as [acc' b].
    cbn [snd] in Hfail. subst b. reflexivity. }
  rewrite L.
  destruct (console_grows (List.filter is_csv after)
              (fst (try_file f acc), console ++ [ErrorReading (filename f)]))
    as [m M].
  destruct (fold_left _ (List.filter is_csv after) _) as [acc2 console2].
  cbn [snd] in M |- *. subst console2.
  apply in_or_app. left. apply in_or_app. left.
  apply in_or_app. right. left. reflexivity.
Qed.

Lemma try_file_cut (f : file) (df : dataframe)
    (good rest : list (list cell)) (bad : list cell) (acc : list product) :
  read_csv f = Frame df ->
  data df = good ++ bad :: rest ->
  forallb (fun cells =>
             implb (supplies_both (combine (columns (normalize_columns df)) cells))
                   (converts (combine (columns (normalize_columns df)) cells)))
    good = true ->
  supplies_both (combine (columns (normalize_columns df)) bad) = true ->
  converts (combine (columns (normalize_columns df)) bad) = false ->
  try_file f acc = (fst (try_file (with_rows f df good) acc), false).
Proof.
  intros R D V Sb C. unfold Catalog.try_file. rewrite R.
  cbn [with_rows filename read_csv].
  unfold iterrows. cbn [Catalog.normalize_columns columns data]. rewrite D.
  rewrite map_app. cbn [map]. rewrite load_rows_app.
  match goal with
  | |- context [Catalog.load_rows _ _ ?s 0 (map ?g good) acc] =>
      destruct (load_rows_count s 0 (map g good) acc) as [Hend _]
  end.
  { rewrite forallb_forall in V |- *. intros row Hrow.
    apply in_map_iff in Hrow as (cells & <- & Hcells). apply (V cells Hcells). }
  rewrite Hend. apply load_rows_raise; assumption.
Qed.

(** C6 (as amended). A file that cannot be read adds no record.  A file
    in which a price fails to convert adds the records of the rows before
    that row, as if the file ended there, and none of the later rows.  In
    both cases the failure is printed and the other files are loaded as
    they would be without it. *)
Theorem failing_file_contained (before after : list file) (f : file) :
  (read_csv f = ReadError ->
     fst (load_product_database (before ++ f :: after))
     = fst (load_product_database (before ++ after))
     /\ (is_csv f = true ->
         In (ErrorReading (filename f))
            (snd (load_product_database (before ++ f :: after)))))
  /\ (forall (df : dataframe) (good rest : list (list cell)) (bad : list cell),
        read_csv f = Frame df ->
        data df = good ++ bad :: rest ->
        forallb (fun cells =>
                   implb (supplies_both
                            (combine (columns (normalize_columns df)) cells))
                         (converts
                            (combine (columns (normalize_columns df)) cells)))
          good = true ->
        supplies_both (combine (columns (normalize_columns df)) bad) = true ->
        converts (combine (columns (normalize_columns df)) bad) = false ->
        fst (load_product_database (before ++ f :: after))
        = fst (load_product_database (before ++ with_rows f df good :: after))
        /\ (is_csv f = true ->
            In (ErrorReading (filename f))
               (snd (load_product_database (before ++ f :: after))))).
Proof.
  split.
  - intros R. split.
    + rewrite !load_products, !List.filter_app, !fold_left_app.
      cbn [List.filter]. destruct (is_csv f); [|reflexivity].
      cbn [fold_left]. unfold Catalog.try_file at 2. rewrite R. reflexivity.
    + intros Hcsv. apply failure_printed; [exact Hcsv|].
      unfold Catalog.try_file. rewrite R. reflexivity.
  - intros df good rest bad R D V Sb C. split.
    + rewrite !load_products, !List.filter_app, !fold_left_app.
      cbn [List.filter].
      change (is_csv (with_rows f df good)) with (is_csv f).
      destruct (is_csv f); [|reflexivity].
      cbn [fold_left].
      rewrite (try_file_cut f df good rest bad _ R D V Sb C). reflexivity.
    + intros Hcsv. apply failure_printed; [exact Hcsv|].
      rewrite (try_file_cut f df good rest bad _ R D V Sb C). reflexivity.
Qed.

End CatalogFacts.

(** C5, as stated, fails: the only row of [gaps.csv] has a name and an
    empty price cell, which the reader delivers as NaN; the frame has both
    columns, so the row has both keys, NaN converts, and the row is loaded as
    a record whose price is NaN instead of being passed over. *)
Lemma blank_price_row_is_loaded :
  Catalog.rows_of AsciiText.ops Samples.gaps_csv
  = [[("name", Samples.text "Lamp"); ("price", Samples.blank)]]
  /\ Catalog.as_float Samples.blank = Some PyFloat.NaN
  /\ map (fun p => (Catalog.name p, Catalog.price p))
         (fst (Catalog.load_product_database AsciiText.ops Samples.series_text
                 [Samples.gaps_csv]))
     = [("Lamp", PyFloat.NaN)]
  /\ snd (Catalog.load_product_database AsciiText.ops Samples.series_text
            [Samples.gaps_csv])
     = [Catalog.Loaded 1 1].
Proof. repeat split; vm_compute; reflexivity. Qed.

(** Two columns that normalise to the same label: the price of a row is
    then a sub-series, its conversion raises, and the file gives nothing. *)
Example duplicate_price_label_fails :
  Catalog.valid_listing AsciiText.ops [Fixtures.dup_csv] = false
  /\ Catalog.load_product_database AsciiText.ops Samples.series_text
       [Fixtures.dup_csv]
     = ([], [Catalog.ErrorReading "dup.csv"; Catalog.Loaded 0 1]).
Proof. split; vm_compute; reflexivity. Qed.

(** C6, as stated, fails: reading [shop.csv] succeeds, the price of its
    second row does not convert, the failure is printed, and yet the file
    has contributed the record of its first row. *)
Lemma failing_file_contributes :
  Catalog.load_product_database AsciiText.ops Samples.series_text
    [Samples.shop_csv]
  = ([ {| Catalog.product_id := 1; Catalog.name := "Lamp";
          Catalog.category := "unknown"; Catalog.store := "Shop";
          Catalog.price := PyFloat.Fin 10; Catalog.currency := "₹";
          Catalog.url := "#"; Catalog.rating := Catalog.VStr "4.0";
          Catalog.brand := "Acme"; Catalog.model_id := "N/A";
          Catalog.stock := "In Stock";
          Catalog.discount_percent := Catalog.VInt 0;
          Catalog.description := "No description available.";
          Catalog.image_url := "" |} ],
     [Catalog.ErrorReading "shop.csv"; Catalog.Loaded 1 1])
  /\ fst (Catalog.load_product_database AsciiText.ops Samples.series_text
            [Samples.shop_csv])
     <> fst (Catalog.load_product_database AsciiText.ops Samples.series_text
               []).
Proof.
  split; [vm_compute; reflexivity|]. vm_compute. discriminate.
Qed.

Lemma load_count_witness :
  Catalog.valid_listing AsciiText.ops
    [Samples.mart_csv; Samples.notes_csv; Samples.broken_csv; Samples.readme]
  = true
  /\ length (fst (Catalog.load_product_database AsciiText.ops
                    Samples.series_text
                    [Samples.mart_csv; Samples.notes_csv; Samples.broken_csv;
                     Samples.readme]))
     = 2.
Proof.
  assert (V : Catalog.valid_listing AsciiText.ops
                [Samples.mart_csv; Samples.notes_csv; Samples.broken_csv;
                 Samples.readme] = true) by (vm_compute; reflexivity).
  split; [exact V|].
  destruct (load_count AsciiText.ops Samples.series_text _ V) as [E _].
  rewrite E. vm_compute. reflexivity.
Defined.

Lemma failing_file_contained_witness :
  (fst (Catalog.load_product_database AsciiText.ops Samples.series_text
          ([Samples.mart_csv] ++ Samples.broken_csv :: [Samples.notes_csv]))
   = fst (Catalog.load_product_database AsciiText.ops Samples.series_text
            ([Samples.mart_csv] ++ [Samples.notes_csv])))
  /\ (fst (Catalog.load_product_database AsciiText.ops Samples.series_text
             ([Samples.mart_csv] ++ Samples.shop_csv :: [Samples.notes_csv]))
      = fst (Catalog.load_product_database AsciiText.ops Samples.series_text
               ([Samples.mart_csv]
                ++ Catalog.with_rows Samples.shop_csv Samples.shop_frame
                     [[Samples.text "Lamp"; Samples.number "10.0" 10;
                       Samples.text "acme"]]
                   :: [Samples.notes_csv])))
  /\ In (Catalog.ErrorReading (Catalog.filename Samples.shop_csv))
        (snd (Catalog.load_product_database AsciiText.ops Samples.series_text
                ([Samples.mart_csv] ++ Samples.shop_csv
                 :: [Samples.notes_csv]))).
Proof.
  pose proof (failing_file_contained AsciiText.ops Samples.series_text
                [Samples.mart_csv] [Samples.notes_csv]
                Samples.broken_csv) as [H1 _].
  pose proof (failing_file_contained AsciiText.ops Samples.series_text
                [Samples.mart_csv] [Samples.notes_csv]
                Samples.shop_csv) as [_ H2].
  specialize (H1 eq_refl).
  specialize (H2 Samples.shop_frame
                [[Samples.text "Lamp"; Samples.number "10.0" 10;
                  Samples.text "acme"]]
                [[Samples.text "Sofa"; Samples.number "5.0" 5;
                  Samples.text "acme"]]
                [Samples.text "Desk"; Samples.text "abc"; Samples.text "acme"]
                eq_refl eq_refl).
  assert (V : forallb
         (fun cells : list Catalog.cell =>
            implb
              (Catalog.supplies_both
                 (combine
                    (Catalog.columns
                       (Catalog.normalize_columns AsciiText.ops
                          Samples.shop_frame)) cells))
              (Catalog.converts
                 (combine
                    (Catalog.columns
                       (Catalog.normalize_columns AsciiText.ops
                          Samples.shop_frame)) cells)))
         [[Samples.text "Lamp"; Samples.number "10.0" 10; Samples.text "acme"]] =
       true) by (vm_compute; reflexivity).
  specialize (H2 V).
  assert (Sb : Catalog.supplies_both
         (combine
            (Catalog.columns
               (Catalog.normalize_columns AsciiText.ops Samples.shop_frame))
            [Samples.text "Desk"; Samples.text "abc"; Samples.text "acme"]) =
       true) by (vm_compute; reflexivity).
  assert (C : Catalog.converts
         (combine
            (Catalog.columns
               (Catalog.normalize_columns AsciiText.ops Samples.shop_frame))
            [Samples.text "Desk"; Samples.text "abc"; Samples.text "acme"]) =
       false) by (vm_compute; reflexivity).
  specialize (H2 Sb C).
  destruct H1 as [E1 _]. destruct H2 as [E2 P2].
  split; [exact E1|]. split; [exact E2|].
  assert (K : Catalog.is_csv Samples.shop_csv = true) by (vm_compute; reflexivity).
  exact (P2 K).
Defined.
(** ** Ordering of floats *)

Section FloatFacts.
Import PyFloat.

Lemma le_fin (x y : Q) : le (Fin x) (Fin y) = true <-> (x <= y)%Q.
Proof.
  unfold le. cbn [lt eqb]. rewrite orb_true_iff, negb_true_iff.
  rewrite Qeq_bool_iff. split.
  - intros [H|H].
    + destruct (Qlt_le_dec x y) as [L|L]; [apply Qlt_le_weak, L|].
      apply Qle_bool_iff in L. congruence.
    + rewrite H. apply Qle_refl.
  - intros H. destruct (Qle_bool y x) eqn:E; [right|left; reflexivity].
    apply Qle_bool_iff in E. apply Qle_antisym; assumption.
Qed.

Lemma lt_le (a b : pyfloat) : lt a b = true -> le a b = true.
Proof. unfold le. intros ->. reflexivity. Qed.

(** Two numbers are always comparable; NaN is comparable with nothing. *)
Lemma le_total (a b : pyfloat) :
  is_nan a = false -> is_nan b = false -> lt a b = false -> le b a = true.
Proof.
  destruct a as [x| | |], b as [y| | |]; cbn; try discriminate; try reflexivity.
  intros _ _ H. apply negb_false_iff in H.
  apply (le_fin y x). apply Qle_bool_iff, H.
Qed.

Lemma le_trans (a b c : pyfloat) :
  le a b = true -> le b c = true -> le a c = true.
Proof.
  destruct a as [x| | |], b as [y| | |], c as [z| | |];
    try (cbn; discriminate); try (cbn; reflexivity).
  rewrite !le_fin. apply Qle_trans.
Qed.

(** Two floats equal to a third are not strictly ordered. *)
Lemma lt_eqb_false (a b x : pyfloat) :
  eqb a x = true -> eqb b x = true -> lt a b = false.
Proof.
  destruct a as [p| | |], b as [q| | |], x as [r| | |];
    cbn; try discriminate; try reflexivity.
  rewrite !Qeq_bool_iff. intros Ha Hb. apply negb_false_iff.
  apply Qle_bool_iff. rewrite Ha, Hb. apply Qle_refl.
Qed.

End FloatFacts.

(** ** Matching and ranking *)

Section SearchFacts.
Import PyStr PyFloat Catalog Search.

Variable T : text_ops.

Local Abbreviation process := (Search.process T).
Local Abbreviation find_matches := (Search.find_matches T).
Local Abbreviation selected := (Search.selected T).
Local Abbreviation form_keywords := (Search.form_keywords T).
Local Abbreviation target_str := (Search.target_str T).
Local Abbreviation lower := (str_lower T).

Lemma insert_by_price_perm (p : product) (l : list product) :
  Permutation (insert_by_price p l) (p :: l).
Proof.
  induction l as [|q l IH]; cbn [insert_by_price]; [reflexivity|].
  destruct (lt (price q) (price p)); [|reflexivity].
  rewrite IH. apply perm_swap.
Qed.

Lemma sort_by_price_perm (l : list product) :
  Permutation (sort_by_price l) l.
Proof.
  induction l as [|p l IH]; cbn [sort_by_price]; [reflexivity|].
  rewrite insert_by_price_perm, IH. reflexivity.
Qed.

Lemma insert_by_price_sorted (p : product) (l : list product) :
  is_nan (price p) = false ->
  List.Forall (fun q => is_nan (price q) = false) l ->
  StronglySorted by_price l ->
  StronglySorted by_price (insert_by_price p l).
Proof.
  intros Np Nl S. induction S as [|q l S IH F]; cbn [insert_by_price].
  - constructor; constructor.
  - inversion Nl as [|? ? Nq Nl']; subst.
    destruct (lt (price q) (price p)) eqn:E.
    + constructor; [apply IH, Nl'|].
      eapply Permutation_Forall.
      * symmetry. apply insert_by_price_perm.
      * constructor; [apply lt_le, E | exact F].
    + assert (Hpq : by_price p q) by (apply le_total; assumption).
      constructor; [constructor; assumption|].
      constructor; [exact Hpq|].
      eapply List.Forall_impl; [|exact F].
      intros r Hqr. eapply le_trans; eassumption.
Qed.

Lemma sort_by_price_sorted (l : list product) :
  List.Forall (fun q => is_nan (price q) = false) l ->
  StronglySorted by_price (sort_by_price l).
Proof.
  induction l as [|p l IH]; intros N; cbn [sort_by_price]; [constructor|].
  inversion N as [|? ? Np Nl]; subst.
  apply insert_by_price_sorted; [exact Np| |apply IH, Nl].
  eapply Permutation_Forall; [symmetry; apply sort_by_price_perm|exact Nl].
Qed.

(** Records with one and the same price keep their relative order. *)
Lemma insert_by_price_stable (x : pyfloat) (p : product) (l : list product) :
  List.filter (fun q => eqb (price q) x) (insert_by_price p l)
  = List.filter (fun q => eqb (price q) x) (p :: l).
Proof.
  induction l as [|q l IH]; cbn [insert_by_price]; [reflexivity|].
  destruct (lt (price q) (price p)) eqn:E; [|reflexivity].
  cbn [List.filter] in IH |- *. rewrite IH.
  destruct (eqb (price p) x) eqn:Ep, (eqb (price q) x) eqn:Eq; try reflexivity.
  rewrite (lt_eqb_false _ _ _ Eq Ep) in E. discriminate.
Qed.

Lemma sort_by_price_stable (x : pyfloat) (l : list product) :
  List.filter (fun q => eqb (price q) x) (sort_by_price l)
  = List.filter (fun q => eqb (price q) x) l.
Proof.
  induction l as [|p l IH]; cbn [sort_by_price]; [reflexivity|].
  rewrite insert_by_price_stable. cbn [List.filter]. rewrite IH. reflexivity.
Qed.

Lemma rank_matches (matches : list product) :
  fst (rank matches) = sort_by_price matches.
Proof. destruct matches; reflexivity. Qed.

Lemma rank_best (matches : list product) :
  snd (rank matches)
  = match sort_by_price matches with
    | first :: _ => Some (price first)
    | [] => None
    end.
Proof. destruct matches; reflexivity. Qed.

Lemma process_matches (database : list product) (label raw : string) :
  fst (process database label raw)
  = sort_by_price (find_matches database label (form_keywords raw)).
Proof. apply rank_matches. Qed.

Lemma in_process (database : list product) (label raw : string) (p : product) :
  In p (fst (process database label raw))
  <-> In p database /\ selected label (form_keywords raw) p = true.
Proof.
  rewrite process_matches. unfold Search.find_matches.
  rewrite <- List.filter_In. split; apply Permutation_in.
  - apply sort_by_price_perm.
  - symmetry. apply sort_by_price_perm.
Qed.

(** C1 (as amended). With keywords that are not empty once lower-cased
    and trimmed, the predicted label plays no part in the result, and a
    record is in the result exactly when the lower-cased text
    "name brand category" (the three fields joined by single spaces)
    contains one of the words, empty words apart, into which the
    lower-cased and trimmed keywords are split. *)
Theorem match_by_keywords (database : list product)
    (label1 label2 raw : string) :
  truthy (form_keywords raw) = true ->
  process database label1 raw = process database label2 raw
  /\ forall p : product,
       In p (fst (process database label1 raw))
       <-> In p database
           /\ exists word, In word (str_split T (form_keywords raw))
                           /\ truthy word = true
                           /\ contains (target_str p) word = true.
Proof.
  intros K. split.
  - unfold Search.process, Search.find_matches. f_equal.
    apply List.filter_ext. intros p. unfold Search.selected.
    rewrite K. reflexivity.
  - intros p. rewrite in_process. unfold Search.selected, Search.key_match.
    rewrite K. rewrite existsb_exists. split.
    + intros [D (word & W & H)]. apply andb_true_iff in H as [N H]. eauto.
    + intros [D (word & W & N & H)]. split; [exact D|]. exists word.
      split; [exact W|]. rewrite N, H. reflexivity.
Qed.

(** C2. With keywords that are empty once lower-cased and trimmed, the
    result holds exactly the records of the catalog whose lower-cased
    category contains the lower-cased label or is contained in it. *)
Theorem match_by_label (database : list product) (label raw : string) :
  form_keywords raw = EmptyString ->
  Permutation (fst (process database label raw))
    (List.filter
       (fun p => contains (lower (category p)) (lower label)
                 || contains (lower label) (lower (category p)))
       database)
  /\ forall p : product,
       In p (fst (process database label raw))
       <-> In p database
           /\ (contains (lower (category p)) (lower label) = true
               \/ contains (lower label) (lower (category p)) = true).
Proof.
  intros K. split.
  - rewrite process_matches, K. apply sort_by_price_perm.
  - intros p. rewrite in_process, K. unfold Search.selected, Search.cat_match.
    cbn [truthy]. rewrite orb_true_iff. reflexivity.
Qed.

(** C3 (as amended). When no price in the catalog is NaN, the results come
    in order of non-decreasing price, results of equal price stand in the
    order they have in the catalog, and the best price reported for a
    non-empty result is the least price among the results (no best price
    is reported for an empty one). *)
Theorem results_ranked (database : list product) (label raw : string) :
  forallb (fun p => negb (is_nan (price p))) database = true ->
  let results := fst (process database label raw) in
  let best := snd (process database label raw) in
  StronglySorted by_price results
  /\ (forall x : pyfloat,
        List.filter (fun p => eqb (price p) x) results
        = List.filter (fun p => eqb (price p) x)
            (List.filter (selected label (form_keywords raw)) database))
  /\ (results = [] -> best = None)
  /\ (results <> [] ->
      exists b, best = Some b
                /\ (exists p, In p results /\ price p = b)
                /\ forall q, In q results -> le b (price q) = true).
Proof.
  intros N results best. subst results best.
  rewrite process_matches. unfold Search.process. rewrite rank_best.
  set (matches := find_matches database label (form_keywords raw)).
  assert (S : StronglySorted by_price (sort_by_price matches)).
  { apply sort_by_price_sorted. apply List.Forall_forall. intros p Hp.
    apply List.filter_In in Hp as [Hp _].
    rewrite forallb_forall in N. apply negb_true_iff, N, Hp. }
  split; [exact S|]. split; [|split].
  - intros x. apply sort_by_price_stable.
  - intros ->. reflexivity.
  - intros NE. destruct (sort_by_price matches) as [|first rest] eqn:E;
      [congruence|].
    exists (price first). split; [reflexivity|]. split.
    + exists first. split; [left|]; reflexivity.
    + inversion S as [|? ? _ F]; subst. intros q [<-|Hq].
      * assert (Nf : is_nan (price first) = false).
        { rewrite forallb_forall in N. apply negb_true_iff, N.
          assert (Hin : In first (sort_by_price matches))
            by (rewrite E; left; reflexivity).
          apply (Permutation_in _ (sort_by_price_perm matches)) in Hin.
          apply List.filter_In in Hin as [Hin _]. exact Hin. }
        unfold le. destruct (price first); cbn in Nf |- *; try reflexivity;
          try discriminate.
        rewrite (proj2 (Qeq_bool_iff q q) (Qeq_refl q)). apply orb_true_r.
      * rewrite List.Forall_forall in F. apply F, Hq.
Qed.

End SearchFacts.

(** C1, as stated, fails: for the record named "ab" of brand "Cd" and
    category "x", the word "bc" occurs in the lower-cased concatenation
    "abcdx" of the three fields, but the record is not in the result for
    the keywords "bc". *)
Lemma plain_concatenation_differs :
  In Samples.ab_cd [Samples.ab_cd]
  /\ In "bc" (AsciiText.split "bc")
  /\ PyStr.contains
       (AsciiText.lower (Catalog.name Samples.ab_cd
                         ++ Catalog.brand Samples.ab_cd
                         ++ Catalog.category Samples.ab_cd)) "bc" = true
  /\ ~ In Samples.ab_cd
         (fst (Search.process AsciiText.ops [Samples.ab_cd] "Unknown" "bc")).
Proof.
  split; [left; reflexivity|]. split; [left; reflexivity|].
  split; [vm_compute; reflexivity|].
  assert (E : fst (Search.process AsciiText.ops [Samples.ab_cd] "Unknown" "bc")
              = [])
    by (vm_compute; reflexivity).
  rewrite E. intros [].
Qed.

(** C3, as stated, fails: the catalog loaded from [lamps.csv] has a record
    whose price is NaN, as an empty price cell gives.  For the keywords
    "lamp" both records match; the results come with the NaN price first
    and the price 5 after it, which is not a non-decreasing order, no
    arrangement of the two matches is one, and the best price reported is
    NaN, which is not the least of the prices. *)
Lemma nan_price_unsorted :
  fst (Catalog.load_product_database AsciiText.ops Samples.series_text
         [Fixtures.lamps_csv])
  = Fixtures.lamps
  /\ map Catalog.price
       (fst (Search.process AsciiText.ops Fixtures.lamps "Unknown" "lamp"))
     = [PyFloat.NaN; PyFloat.Fin 5]
  /\ ~ StronglySorted Search.by_price
         (fst (Search.process AsciiText.ops Fixtures.lamps "Unknown" "lamp"))
  /\ (forall l : list Catalog.product,
        Permutation
          (Search.find_matches AsciiText.ops Fixtures.lamps "Unknown" "lamp")
          l ->
        ~ StronglySorted Search.by_price l)
  /\ snd (Search.process AsciiText.ops Fixtures.lamps "Unknown" "lamp")
     = Some PyFloat.NaN
  /\ PyFloat.le PyFloat.NaN (PyFloat.Fin 5) = false.
Proof.
  assert (M : Search.find_matches AsciiText.ops Fixtures.lamps "Unknown" "lamp"
              = [Fixtures.lamp 1 "Lamp" PyFloat.NaN;
                 Fixtures.lamp 2 "Desk Lamp" (PyFloat.Fin 5)])
    by (vm_compute; reflexivity).
  assert (R : fst (Search.process AsciiText.ops Fixtures.lamps "Unknown" "lamp")
              = [Fixtures.lamp 1 "Lamp" PyFloat.NaN;
                 Fixtures.lamp 2 "Desk Lamp" (PyFloat.Fin 5)])
    by (vm_compute; reflexivity).
  assert (U : forall l : list Catalog.product,
            Permutation [Fixtures.lamp 1 "Lamp" PyFloat.NaN;
                         Fixtures.lamp 2 "Desk Lamp" (PyFloat.Fin 5)] l ->
            ~ StronglySorted Search.by_price l).
  { intros l P S. apply Permutation_length_2_inv in P as [-> | ->];
      inversion S as [|? ? _ F]; subst;
      inversion F as [|? ? H _]; subst;
      unfold Search.by_price in H; vm_compute in H; discriminate. }
  split; [vm_compute; reflexivity|].
  split; [rewrite R; reflexivity|].
  split; [rewrite R; apply U; reflexivity|].
  split; [rewrite M; exact U|].
  split; vm_compute; reflexivity.
Qed.

Lemma match_by_keywords_witness :
  PyStr.truthy (Search.form_keywords AsciiText.ops "  NIKE  boots ") = true
  /\ Search.process AsciiText.ops Samples.phones "Smartphone" "  NIKE  boots "
     = Search.process AsciiText.ops Samples.phones "Unknown" "  NIKE  boots "
  /\ map Catalog.product_id
       (fst (Search.process AsciiText.ops Samples.phones "Smartphone"
               "  NIKE  boots "))
     = [3].
Proof.
  assert (K : PyStr.truthy
                (Search.form_keywords AsciiText.ops "  NIKE  boots ") = true)
    by (vm_compute; reflexivity).
  split; [exact K|]. split.
  - exact (proj1 (match_by_keywords AsciiText.ops Samples.phones "Smartphone"
                    "Unknown" "  NIKE  boots " K)).
  - vm_compute. reflexivity.
Defined.

Lemma match_by_label_witness :
  Search.form_keywords AsciiText.ops "   " = EmptyString
  /\ Permutation
       (fst (Search.process AsciiText.ops Samples.phones "Smartphone" "   "))
       (List.filter
          (fun p =>
             PyStr.contains
               (PyStr.str_lower AsciiText.ops (Catalog.category p))
               (PyStr.str_lower AsciiText.ops "Smartphone")
             || PyStr.contains (PyStr.str_lower AsciiText.ops "Smartphone")
                  (PyStr.str_lower AsciiText.ops (Catalog.category p)))
          Samples.phones)
  /\ map Catalog.product_id
       (fst (Search.process AsciiText.ops Samples.phones "Smartphone" "   "))
     = [2; 4; 1].
Proof.
  assert (K : Search.form_keywords AsciiText.ops "   " = EmptyString)
    by (vm_compute; reflexivity).
  split; [exact K|]. split.
  - exact (proj1 (match_by_label AsciiText.ops Samples.phones "Smartphone"
                    "   " K)).
  - vm_compute. reflexivity.
Defined.

Lemma results_ranked_witness :
  forallb (fun p => negb (PyFloat.is_nan (Catalog.price p))) Samples.phones
  = true
  /\ StronglySorted Search.by_price
       (fst (Search.process AsciiText.ops Samples.phones "Smartphone" ""))
  /\ snd (Search.process AsciiText.ops Samples.phones "Smartphone" "")
     = Some (PyFloat.Fin (84999 # 100)).
Proof.
  assert (N : forallb (fun p => negb (PyFloat.is_nan (Catalog.price p)))
                Samples.phones = true) by (vm_compute; reflexivity).
  split; [exact N|]. split.
  - exact (proj1 (results_ranked AsciiText.ops Samples.phones "Smartphone" ""
                    N)).
  - vm_compute. reflexivity.
Defined.
(** * Further properties *)

(** ** Hashing *)

Section HashFacts.
Import PyStr Auth.

Variable sha256 : string -> list ascii.

Lemma code_bounded (c : ascii) : code c < 256.
Proof. apply nat_ascii_bounded. Qed.

Lemma hex_digit_code (n : nat) :
  n < 16 -> code (hex_digit n) = if Nat.ltb n 10 then 48 + n else 87 + n.
Proof.
  intros H. unfold hex_digit, code.
  destruct (Nat.ltb n 10); apply nat_ascii_embedding; lia.
Qed.

Lemma hex_digit_inj (n m : nat) :
  n < 16 -> m < 16 -> hex_digit n = hex_digit m -> n = m.
Proof.
  intros Hn Hm E. apply (f_equal code) in E.
  rewrite !hex_digit_code in E by assumption.
  destruct (Nat.ltb_spec n 10), (Nat.ltb_spec m 10); lia.
Qed.

Lemma hex_byte_inj (a b : ascii) :
  hex_digit (code a / 16) = hex_digit (code b / 16) ->
  hex_digit (code a mod 16) = hex_digit (code b mod 16) ->
  a = b.
Proof.
  intros Hhi Hlo.
  pose proof (code_bounded a) as Ba. pose proof (code_bounded b) as Bb.
  apply hex_digit_inj in Hhi;
    [|apply Nat.Div0.div_lt_upper_bound; lia
     |apply Nat.Div0.div_lt_upper_bound; lia].
  apply hex_digit_inj in Hlo;
    [|apply Nat.mod_upper_bound; lia|apply Nat.mod_upper_bound; lia].
  assert (E : code a = code b).
  { rewrite (Nat.div_mod_eq (code a) 16), (Nat.div_mod_eq (code b) 16).
    rewrite Hhi, Hlo. reflexivity. }
  unfold code in E.
  rewrite <- (ascii_nat_embedding a), <- (ascii_nat_embedding b), E.
  reflexivity.
Qed.

(** The hexadecimal encoding loses nothing. *)
Lemma hex_inj (a b : list ascii) : hex a = hex b -> a = b.
Proof.
  revert b. induction a as [|x a IH]; intros [|y b] E; cbn [hex] in E;
    try discriminate; [reflexivity|].
  injection E as Hhi Hlo Hrest.
  f_equal; [apply hex_byte_inj; assumption|apply IH, Hrest].
Qed.

Lemma verify_against_hash (entropy : list ascii) (password provided : string) :
  verify_password sha256 (hash_password sha256 entropy password) provided
  = Some (String.eqb (hexdigest sha256 (hex entropy ++ provided))
            (hexdigest sha256 (hex entropy ++ password))).
Proof. unfold verify_password. rewrite split_stored. reflexivity. Qed.

(** X1. Checking any password against a stored form that [hash_password]
    produced never raises, and it succeeds exactly when the salted
    password has the same SHA-256 digest as the salted original: a wrong
    password is let in only by a digest collision. *)
Theorem verify_accepts_on_equal_digest (entropy : list ascii)
    (password provided : string) :
  exists b : bool,
    verify_password sha256 (hash_password sha256 entropy password) provided
    = Some b
    /\ (b = true
        <-> sha256 (hex entropy ++ provided) = sha256 (hex entropy ++ password)).
Proof.
  eexists. split; [apply verify_against_hash|].
  rewrite String.eqb_eq. unfold hexdigest. split.
  - apply hex_inj.
  - intros ->. reflexivity.
Qed.

(** X2. The stored form determines the salt: hashing with different
    random bytes never gives the same stored string, whatever the
    passwords. *)
Theorem hash_password_salt_differs (entropy1 entropy2 : list ascii)
    (password1 password2 : string) :
  entropy1 <> entropy2 ->
  hash_password sha256 entropy1 password1
  <> hash_password sha256 entropy2 password2.
Proof.
  intros N E. apply N. apply (f_equal (split_on ":")) in E.
  rewrite !split_stored in E. injection E as Hsalt _.
  apply hex_inj, Hsalt.
Qed.

End HashFacts.

Lemma hash_password_salt_differs_witness :
  ["k"%char] <> ["q"%char]
  /\ Auth.hash_password Samples.toy_sha256 ["k"%char] "secret"
     <> Auth.hash_password Samples.toy_sha256 ["q"%char] "secret".
Proof.
  assert (N : ["k"%char] <> ["q"%char]) by discriminate.
  split; [exact N|].
  exact (hash_password_salt_differs Samples.toy_sha256 ["k"%char] ["q"%char]
           "secret" "secret" N).
Defined.

(** ** Registration and login *)

Section AccountFacts.
Import PyStr Auth Accounts.

Variable T : text_ops.
Variable sha256 : string -> list ascii.

Local Abbreviation register := (Accounts.register T sha256).
Local Abbreviation login := (Auth.login T sha256).
Local Abbreviation login_request := (Accounts.login_request T sha256).
Local Abbreviation lower := (str_lower T).
Local Abbreviation strip := (str_strip T).

(** Everything a successful registration tells about its input. *)
Lemma register_inv (users saved : gmap string user)
    (form_email form_username form_full_name form_password form_confirm : string)
    (entropy : list ascii) (now actor act details message category : string)
    (target : page) :
  register users form_email form_username form_full_name form_password
    form_confirm entropy now
  = Registered saved actor act details message category target ->
  truthy (lower (strip form_email)) = true
  /\ truthy (strip form_username) = true
  /\ truthy (strip form_full_name) = true
  /\ truthy form_password = true
  /\ form_password = form_confirm
  /\ 6 <= len form_password
  /\ users !! lower (strip form_email) = None
  /\ saved
     = <[lower (strip form_email) :=
           {| username := strip form_username;
              password := hash_password sha256 entropy form_password;
              full_name := strip form_full_name;
              role := "user";
              created_at := now;
              last_login := None;
              uploads_count := 0;
              searches := Some [] |}]> users.
Proof.
  unfold Accounts.register. cbn [forallb].
  destruct (truthy (lower (strip form_email))); [|discriminate].
  destruct (truthy (strip form_username)); [|discriminate].
  destruct (truthy (strip form_full_name)); [|discriminate].
  destruct (truthy form_password); [|discriminate].
  cbn [andb negb].
  destruct (String.eqb_spec form_password form_confirm) as [E|];
    [|discriminate].
  cbn [negb].
  destruct (Nat.ltb_spec (len form_password) 6) as [|L];
    [discriminate|].
  destruct (users !! lower (strip form_email)) eqn:U; [discriminate|].
  intros [= <- _ _ _ _ _ _]. repeat split; try reflexivity; assumption.
Qed.

(** X3. An account is written only when every check passed: the
    trimmed email, user name and full name and the password are not empty,
    the two password entries are equal, the password has at least 6
    characters, and the trimmed and lower-cased email had no account. *)
Theorem register_requirements (users saved : gmap string user)
    (form_email form_username form_full_name form_password form_confirm : string)
    (entropy : list ascii) (now actor act details message category : string)
    (target : page) :
  register users form_email form_username form_full_name form_password
    form_confirm entropy now
  = Registered saved actor act details message category target ->
  truthy (lower (strip form_email)) = true
  /\ truthy (strip form_username) = true
  /\ truthy (strip form_full_name) = true
  /\ form_password = form_confirm
  /\ 6 <= len form_password
  /\ users !! lower (strip form_email) = None.
Proof.
  intros R. apply register_inv in R. tauto.
Qed.

(** X4. Registration never removes or changes an existing account: after
    a successful one every account of the store is still there unchanged,
    the only new key is the trimmed and lower-cased email, its role is
    "user" and it has never logged in; and an email whose trimmed and
    lower-cased form has an account is refused. *)
Theorem register_keeps_accounts (users : gmap string user)
    (form_email form_username form_full_name form_password form_confirm : string)
    (entropy : list ascii) (now : string) :
  match register users form_email form_username form_full_name
          form_password form_confirm entropy now with
  | Registered saved _ _ _ _ _ _ =>
      (forall (k : string) (u : user),
         users !! k = Some u -> saved !! k = Some u)
      /\ (forall k : string,
            k <> lower (strip form_email) -> saved !! k = users !! k)
      /\ exists u, saved !! lower (strip form_email) = Some u
                   /\ role u = "user" /\ last_login u = None
  | Refused _ _ target => target = RegisterPage
  end
  /\ (is_Some (users !! lower (strip form_email)) ->
      exists message,
        register users form_email form_username form_full_name
          form_password form_confirm entropy now
        = Refused message "danger" RegisterPage).
Proof.
  split.
  - destruct (register users form_email form_username form_full_name
                form_password form_confirm entropy now)
      as [m c t|saved a b d m c t] eqn:R.
    + revert R. unfold Accounts.register.
      repeat match goal with
             | |- context [if ?b then _ else _] => destruct b
             | |- context [match ?o with Some _ => _ | None => _ end] =>
                 destruct o
             end; intros [= <- <- <-] || intros [=]; reflexivity.
    + apply register_inv in R as (_ & _ & _ & _ & _ & _ & U & ->).
      split; [|split].
      * intros k u Hk. rewrite lookup_insert_ne; [exact Hk|].
        intros <-. congruence.
      * intros k Hk. apply lookup_insert_ne. congruence.
      * eexists. rewrite lookup_insert_eq. split; [reflexivity|].
        split; reflexivity.
  - intros [u U]. unfold Accounts.register. rewrite U.
    repeat match goal with
           | |- context [if ?b then _ else _] => destruct b
           end; eexists; reflexivity.
Qed.

(** The login that follows a registration. *)
Lemma register_login_accepted (users saved : gmap string user)
    (form_email form_username form_full_name form_password form_confirm : string)
    (entropy : list ascii) (now actor act details message category : string)
    (target : page) (login_email now' remote_addr : string) :
  register users form_email form_username form_full_name form_password
    form_confirm entropy now
  = Registered saved actor act details message category target ->
  lower (strip login_email) = lower (strip form_email) ->
  exists u : user,
    saved !! lower (strip form_email) = Some u
    /\ login saved login_email form_password now' remote_addr
       = Accepted (<[lower (strip form_email) := set_last_login now' u]> saved)
           {| user_email := lower (strip form_email);
              user_name := strip form_username;
              session_full_name := strip form_full_name;
              session_role := "user";
              permanent := true |}
           (lower (strip form_email)) "LOGIN"
           ("Successful login from " ++ remote_addr)
           ("Welcome back, " ++ strip form_username ++ "!") "success"
           Auth.IndexPage.
Proof.
  intros R E. apply register_inv in R as (He & _ & _ & Hp & _ & _ & _ & ->).
  eexists. split; [apply lookup_insert_eq|].
  unfold Auth.login. rewrite E, He, Hp. cbn [negb orb].
  rewrite lookup_insert_eq. cbn [password].
  rewrite verify_against_hash, String.eqb_refl. reflexivity.
Qed.

(** With both files writable an accepted login is answered. *)
Lemma login_request_accepted (u : users_disk) (d : ActivityLog.disk)
    (console : list string) (session : option session)
    (form_email form_password now log_now remote_addr : string)
    (saved : gmap string user) (s : Auth.session)
    (actor act details message category : string) (target : endpoint) :
  users_writable u = ActivityLog.CanWrite ->
  ActivityLog.writable d = ActivityLog.CanWrite ->
  login (load_users (users_json u)) form_email form_password now remote_addr
  = Accepted saved s actor act details message category target ->
  exists (d' : ActivityLog.disk) (console' : list string),
    login_request u d console session form_email form_password now log_now
      remote_addr
    = Replied {| users_json := UsersJson saved;
                 users_writable := ActivityLog.CanWrite |}
        d' console' (Some s) message category target.
Proof.
  intros Wu Wd L. unfold Accounts.login_request. rewrite L.
  unfold save_users. rewrite Wu.
  unfold ActivityLog.log_activity. rewrite Wd.
  eexists _, _. reflexivity.
Qed.

(** X5. A freshly registered account can log in.  When the users file
    holds the store a registration saved and this file and the journal can
    be rewritten, a login with the password just registered and an email
    that trims and lower-cases to the registered one is answered, not
    failed: the session carries the registered email and the role "user",
    the message is the success message, and the visitor is sent to the
    home page. *)
Theorem register_then_login (users saved : gmap string user)
    (form_email form_username form_full_name form_password form_confirm : string)
    (entropy : list ascii) (now actor act details message category : string)
    (target : page) (u : users_disk) (d : ActivityLog.disk)
    (console : list string) (session : option session)
    (login_email now' log_now remote_addr : string) :
  register users form_email form_username form_full_name form_password
    form_confirm entropy now
  = Registered saved actor act details message category target ->
  lower (strip login_email) = lower (strip form_email) ->
  users_json u = UsersJson saved ->
  users_writable u = ActivityLog.CanWrite ->
  ActivityLog.writable d = ActivityLog.CanWrite ->
  exists (u' : users_disk) (d' : ActivityLog.disk) (console' : list string),
    login_request u d console session login_email form_password now' log_now
      remote_addr
    = Replied u' d' console'
        (Some {| user_email := lower (strip form_email);
                 user_name := strip form_username;
                 session_full_name := strip form_full_name;
                 session_role := "user";
                 permanent := true |})
        ("Welcome back, " ++ strip form_username ++ "!") "success"
        Auth.IndexPage.
Proof.
  intros R E J Wu Wd.
  destruct (register_login_accepted _ _ _ _ _ _ _ _ _ _ _ _ _ _ _
              login_email now' remote_addr R E) as (x & _ & L).
  assert (L' : login (load_users (users_json u)) login_email form_password
                 now' remote_addr = _) by (rewrite J; exact L).
  destruct (login_request_accepted u d console session _ _ _ log_now _ _ _ _
              _ _ _ _ _ Wu Wd L') as (d' & console' & Q).
  eexists _, d', console'. exact Q.
Qed.

(** X6. Self-registration never gives administrator rights: the session
    of a login into a freshly registered account passes [login_required]
    and is turned away by [admin_required]. *)
Theorem registered_user_is_not_admin (A : Type) (view : A)
    (users saved saved' : gmap string user)
    (form_email form_username form_full_name form_password form_confirm : string)
    (entropy : list ascii) (now actor act details message category : string)
    (target : page) (login_email now' remote_addr : string)
    (s : session) (actor' act' details' message' category' : string)
    (target' : endpoint) :
  register users form_email form_username form_full_name form_password
    form_confirm entropy now
  = Registered saved actor act details message category target ->
  login saved login_email form_password now' remote_addr
  = Accepted saved' s actor' act' details' message' category' target' ->
  lower (strip login_email) = lower (strip form_email) ->
  login_required view (Some s) = Allowed view
  /\ admin_required view (Some s) saved'
     = Denied "🔒 Admin access required" "danger" IndexPage
  /\ target' = Auth.IndexPage.
Proof.
  intros R L E.
  destruct (register_login_accepted _ _ _ _ _ _ _ _ _ _ _ _ _ _ _
              login_email now' remote_addr R E) as (u & U & L').
  rewrite L' in L. injection L as <- <- _ _ _ _ _ <-.
  split; [reflexivity|]. split; [|reflexivity].
  unfold admin_required. cbn [user_email].
  rewrite lookup_insert_eq.
  apply register_inv in R as (_ & _ & _ & _ & _ & _ & _ & ->).
  rewrite lookup_insert_eq in U. injection U as <-. reflexivity.
Qed.

(** What an accepted login tells about its input. *)
Lemma login_inv (users saved : gmap string user)
    (form_email form_password now remote_addr : string) (s : session)
    (actor act details message category : string) (target : endpoint) :
  login users form_email form_password now remote_addr
  = Accepted saved s actor act details message category target ->
  exists u : user,
    users !! lower (strip form_email) = Some u
    /\ verify_password sha256 (password u) form_password = Some true
    /\ saved = <[lower (strip form_email) := set_last_login now u]> users
    /\ user_email s = lower (strip form_email)
    /\ session_role s = role u.
Proof.
  unfold Auth.login.
  destruct (negb (truthy (lower (strip form_email)))
            || negb (truthy form_password)); [discriminate|].
  destruct (users !! lower (strip form_email)) as [u|] eqn:U; [|discriminate].
  destruct (verify_password sha256 (password u) form_password) as [[]|] eqn:V;
    try discriminate.
  intros [= <- <- _ _ _ _ _ _]. exists u.
  repeat split; first [assumption | reflexivity].
Qed.

(** X7. An accepted login writes nothing but the time of the login: the
    saved store has the same accounts as before, and every account keeps
    its user name, password, full name, role, creation time, upload count
    and search history. *)
Theorem login_changes_only_last_login (users saved : gmap string user)
    (form_email form_password now remote_addr : string) (s : session)
    (actor act details message category : string) (target : endpoint) :
  login users form_email form_password now remote_addr
  = Accepted saved s actor act details message category target ->
  dom saved = dom users
  /\ forall (k : string) (u' : user),
       saved !! k = Some u' ->
       exists u : user,
         users !! k = Some u
         /\ username u' = username u /\ password u' = password u
         /\ full_name u' = full_name u /\ role u' = role u
         /\ created_at u' = created_at u
         /\ uploads_count u' = uploads_count u
         /\ searches u' = searches u
         /\ (k <> lower (strip form_email) -> u' = u)
         /\ (k = lower (strip form_email) -> last_login u' = Some now).
Proof.
  intros L. apply login_inv in L as (u & U & _ & -> & _).
  split.
  - rewrite dom_insert_L. apply elem_of_dom_2 in U.
    apply subseteq_union_1_L, singleton_subseteq_l, U.
  - intros k u' Hk.
    destruct (decide (k = lower (strip form_email))) as [->|N].
    + rewrite lookup_insert_eq in Hk. injection Hk as <-.
      exists u. repeat split; try reflexivity; try assumption. congruence.
    + rewrite lookup_insert_ne in Hk by congruence.
      exists u'. repeat split; try reflexivity; try assumption. congruence.
Qed.

(** X8. Stored passwords keep the salt:hash form.  If every account of
    the store has a password that [hash_password] produced, so has every
    account of the store that registration, [init_users], an accepted
    login or the search-history update saves; on such a store the password
    check of a login never raises, whatever is typed; and when the users
    file holds such a store and this file and the journal can be rewritten,
    a login request does not end in a server error. *)
Theorem stored_passwords_stay_salted (users : gmap string user) :
  well_formed sha256 users ->
  (forall form_email form_username form_full_name form_password form_confirm
          entropy now saved actor act details message category target,
     register users form_email form_username form_full_name
       form_password form_confirm entropy now
     = Registered saved actor act details message category target ->
     well_formed sha256 saved)
  /\ (forall entropy now saved,
        init_users sha256 users entropy now = Some saved ->
        well_formed sha256 saved)
  /\ (forall form_email form_password now remote_addr saved s actor act
             details message category target,
        login users form_email form_password now remote_addr
        = Accepted saved s actor act details message category target ->
        well_formed sha256 saved)
  /\ (forall email now label keywords n_matches unique_filename saved,
        record_search users email now label keywords n_matches unique_filename
        = Some saved ->
        well_formed sha256 saved)
  /\ (forall form_email form_password now remote_addr,
        login users form_email form_password now remote_addr
        <> Crashed)
  /\ (forall u d console session form_email form_password now log_now
             remote_addr u' d' console',
        load_users (users_json u) = users ->
        users_writable u = ActivityLog.CanWrite ->
        ActivityLog.writable d = ActivityLog.CanWrite ->
        login_request u d console session form_email form_password now
          log_now remote_addr
        <> ServerError u' d' console').
Proof.
  intros W.
  assert (NC : forall form_email form_password now remote_addr,
             login users form_email form_password now remote_addr
             <> Crashed).
  { intros form_email form_password now remote_addr. unfold Auth.login.
    destruct (negb (truthy (lower (strip form_email)))
              || negb (truthy form_password)); [discriminate|].
    destruct (users !! lower (strip form_email)) as [u|] eqn:U;
      [|discriminate].
    destruct (W _ _ U) as (entropy & p & ->).
    rewrite verify_against_hash.
    destruct (String.eqb _ _); discriminate. }
  split; [|split; [|split; [|split; [|split; [exact NC|]]]]].
  - intros. apply register_inv in H as (_ & _ & _ & _ & _ & _ & _ & ->).
    intros k u Hk. destruct (decide (k = lower (strip form_email))) as [->|N].
    + rewrite lookup_insert_eq in Hk. injection Hk as <-.
      eexists _, _. reflexivity.
    + rewrite lookup_insert_ne in Hk by congruence. eapply W, Hk.
  - intros entropy now saved. unfold init_users.
    destruct (Nat.eqb (size users) 0); [|discriminate].
    intros [= <-] k u Hk. destruct (decide (k = "admin@epc.com")) as [->|N].
    + rewrite lookup_insert_eq in Hk. injection Hk as <-.
      eexists _, _. reflexivity.
    + rewrite lookup_insert_ne in Hk by congruence. eapply W, Hk.
  - intros. apply login_inv in H as (u & U & _ & -> & _).
    intros k u' Hk. destruct (decide (k = lower (strip form_email))) as [->|N].
    + rewrite lookup_insert_eq in Hk. injection Hk as <-.
      apply (W _ _ U).
    + rewrite lookup_insert_ne in Hk by congruence. eapply W, Hk.
  - intros email now label keywords n_matches unique_filename saved.
    unfold record_search. destruct (users !! email) as [u|] eqn:U;
      [|discriminate].
    intros [= <-] k u' Hk. destruct (decide (k = email)) as [->|N].
    + rewrite lookup_insert_eq in Hk. injection Hk as <-.
      apply (W _ _ U).
    + rewrite lookup_insert_ne in Hk by congruence. eapply W, Hk.
  - intros u d console session form_email form_password now log_now
      remote_addr u' d' console' J Wu Wd.
    unfold Accounts.login_request. rewrite J.
    destruct (login users form_email form_password now remote_addr)
      as [m c t| |saved s a b e m c t] eqn:L.
    + discriminate.
    + exfalso. exact (NC _ _ _ _ L).
    + unfold save_users. rewrite Wu.
      unfold ActivityLog.log_activity. rewrite Wd. discriminate.
Qed.

(** X9. [init_users] writes only into an empty store: a users file that
    holds at least one account is left as it is, running it a second time
    changes nothing, and a missing, unreadable or empty users file is
    replaced by a store that holds exactly the administrator account. *)
Theorem init_users_once (f : users_file) (entropy entropy' : list ascii)
    (now now' : string) :
  init_users_file sha256 (init_users_file sha256 f entropy now) entropy' now'
  = init_users_file sha256 f entropy now
  /\ (load_users f <> ∅ -> init_users_file sha256 f entropy now = f)
  /\ (load_users f = ∅ ->
      exists admin : user,
        init_users_file sha256 f entropy now
        = UsersJson {[ "admin@epc.com" := admin ]}
        /\ role admin = "admin"
        /\ password admin = hash_password sha256 entropy "admin123").
Proof.
  assert (Hne : forall e n, load_users f <> ∅ -> init_users_file sha256 f e n = f).
  { intros e n N. unfold init_users_file, init_users.
    destruct (Nat.eqb_spec (size (load_users f)) 0) as [Z|]; [|reflexivity].
    apply map_size_empty_iff in Z. contradiction. }
  assert (He : load_users f = ∅ ->
               exists admin : user,
                 init_users_file sha256 f entropy now
                 = UsersJson {[ "admin@epc.com" := admin ]}
                 /\ role admin = "admin"
                 /\ password admin = hash_password sha256 entropy "admin123").
  { intros E. unfold init_users_file, init_users. rewrite E.
    rewrite map_size_empty. cbn [Nat.eqb]. rewrite insert_empty.
    eexists. split; [reflexivity|]. split; reflexivity. }
  split; [|split; [apply Hne|exact He]].
  destruct (decide (load_users f = ∅)) as [E|N].
  - destruct (He E) as (admin & -> & _).
    unfold init_users_file, init_users. cbn [load_users].
    rewrite map_size_singleton. reflexivity.
  - rewrite (Hne entropy now N). apply Hne, N.
Qed.

(** X10. The administrator that [init_users] creates in an empty store
    can log in with the password "admin123": when the users file is the
    one [init_users] left and this file and the journal can be rewritten,
    a login with an email that trims and lower-cases to "admin@epc.com" is
    answered with a redirect to the admin dashboard, and its session passes
    [admin_required] on the store the login saved. *)
Theorem initial_admin_can_log_in (A : Type) (view : A) (f : users_file)
    (entropy : list ascii) (u : users_disk) (d : ActivityLog.disk)
    (console : list string) (session : option session)
    (now login_email now' log_now remote_addr : string) :
  load_users f = ∅ ->
  lower (strip login_email) = "admin@epc.com" ->
  users_json u = init_users_file sha256 f entropy now ->
  users_writable u = ActivityLog.CanWrite ->
  ActivityLog.writable d = ActivityLog.CanWrite ->
  exists (saved : gmap string user) (d' : ActivityLog.disk)
         (console' : list string) (s : Auth.session) (message : string),
    login_request u d console session login_email "admin123" now' log_now
      remote_addr
    = Replied {| users_json := UsersJson saved;
                 users_writable := ActivityLog.CanWrite |}
        d' console' (Some s) message "success" AdminDashboard
    /\ admin_required view (Some s) saved = Allowed view.
Proof.
  intros E L J Wu Wd.
  assert (Q : exists (saved : gmap string user) (s : Auth.session)
                     (details message : string),
             login (load_users (users_json u)) login_email "admin123" now'
               remote_addr
             = Accepted saved s "admin@epc.com" "LOGIN" details message
                 "success" AdminDashboard
             /\ admin_required view (Some s) saved = Allowed view).
  { rewrite J. unfold init_users_file, init_users. rewrite E.
    rewrite map_size_empty. cbn [Nat.eqb load_users].
    unfold Auth.login. rewrite L. cbn [truthy negb orb].
    rewrite lookup_insert_eq. cbn [password].
    rewrite verify_against_hash, String.eqb_refl.
    eexists _, _, _, _. split; [reflexivity|].
    unfold admin_required. cbn [user_email]. rewrite lookup_insert_eq.
    reflexivity. }
  destruct Q as (saved & s & details & message & Q & G).
  destruct (login_request_accepted u d console session _ _ _ log_now _ _ _ _
              _ _ _ _ _ Wu Wd Q) as (d' & console' & R).
  exists saved, d', console', s, message. split; [exact R|exact G].
Qed.

End AccountFacts.

(** A login with the right password that fails all the same: the users
    file is rewritten with the time of the login, then the journal call
    raises on a journal that cannot be opened for writing, and the request
    ends in a server error. *)
Example login_request_can_fail :
  Accounts.login_request AsciiText.ops Samples.toy_sha256
    {| Accounts.users_json := Accounts.UsersJson Fixtures.two_users;
       Accounts.users_writable := ActivityLog.CanWrite |}
    Samples.read_only_disk [] None "bob@shop.io" "hunter22"
    "2025-02-02 09:00:00" "2025-02-02 09:00:00" "10.0.0.7"
  = Accounts.ServerError
      {| Accounts.users_json := Accounts.UsersJson Fixtures.two_users_later;
         Accounts.users_writable := ActivityLog.CanWrite |}
      Samples.read_only_disk
      [ "📝 [2025-02-02 09:00:00] bob@shop.io: LOGIN Successful login from 10.0.0.7" ].
Proof. vm_compute. reflexivity. Qed.
(** ** Sessions, the journal below its cap, and the search history *)

Section SessionFacts.
Import PyStr Auth ActivityLog Accounts.

(** X11. Below the cap nothing is dropped: when the journal file can be
    written and fewer than 1000 entries were read, the journal afterwards
    is the old entries followed by the new one; in every case it holds
    min(old + 1, 1000) entries. *)
Theorem journal_grows_below_cap (d : disk) (console : list string)
    (now user_email action_ details_ remote_addr : string) :
  writable d = CanWrite ->
  exists logs : list log_entry,
    log_activity d console now user_email action_ details_ remote_addr
    = Returned {| logs_file := Journal logs; writable := CanWrite |}
        (console ++ [console_line
                       {| timestamp := now; user := user_email;
                          action := action_; details := details_;
                          ip := remote_addr |}])
    /\ length logs = Nat.min (length (read_logs d) + 1) 1000
    /\ (length (read_logs d) < 1000 ->
        logs = read_logs d
               ++ [ {| timestamp := now; user := user_email;
                       action := action_; details := details_;
                       ip := remote_addr |} ]).
Proof.
  intros W. unfold log_activity. rewrite W. eexists. split; [reflexivity|].
  rewrite keep_last_drop, length_drop, length_app. cbn [length]. split.
  - lia.
  - intros L. replace (length (read_logs d) + 1 - 1000) with 0 by lia.
    reflexivity.
Qed.

(** X12. Logging out clears the session only after the journal call
    returned.  With a session and a journal file that can be written, the
    session is cleared and a LOGOUT entry for its email is the last entry
    of the journal; without a session nothing is written; with a session
    and a journal file that cannot be written the request raises and the
    session is still the one it was, and the journal is as it was when
    the file could not be opened. *)
Theorem logout_outcomes (session : option Auth.session) (d : disk)
    (console : list string) (now remote_addr : string) :
  match logout session d console now remote_addr with
  | LoggedOut session' d' console' message category target =>
      session' = None
      /\ message = "You have been logged out" /\ target = IndexPage
      /\ match session with
         | None => d' = d /\ console' = console
         | Some s =>
             writable d = CanWrite
             /\ exists logs,
                  logs_file d' = Journal logs
                  /\ last logs
                     = Some {| timestamp := now; user := Auth.user_email s;
                               action := "LOGOUT";
                               details := "User logged out";
                               ip := remote_addr |}
         end
  | LogoutRaised session' d' console' =>
      session' = session /\ is_Some session
      /\ writable d <> CanWrite
      /\ (writable d = OpenRaises -> d' = d)
  end.
Proof.
  unfold logout. destruct session as [s|].
  - unfold log_activity. destruct (writable d) eqn:W.
    + repeat split. eexists. split; [reflexivity|].
      rewrite keep_last_drop.
      rewrite drop_app_le by (rewrite length_app; cbn [length]; lia).
      apply last_snoc.
    + repeat split; [eexists; reflexivity|discriminate].
    + repeat split; [eexists; reflexivity|discriminate..].
  - repeat split.
Qed.

(** The last [n] elements, taken again after more elements came. *)
Lemma drop_tail_app {A : Type} (n : nat) (a b : list A) :
  drop (length (drop (length a - n) a ++ b) - n) (drop (length a - n) a ++ b)
  = drop (length (a ++ b) - n) (a ++ b).
Proof.
  rewrite !length_app, length_drop.
  rewrite !drop_app, drop_drop, length_drop.
  f_equal; f_equal; lia.
Qed.

Lemma record_search_saved (users : gmap string Auth.user) (email : string)
    (u : Auth.user) (e : search_entry) :
  users !! email = Some u ->
  record_search users email (search_timestamp e) (search_category e)
    (search_keywords e) (matches_count e) (image e)
  = Some (<[email :=
              set_searches
                (drop (length (history u ++ [e]) - 50) (history u ++ [e])) u]>
            users).
Proof. intros U. unfold record_search. rewrite U. destruct e. reflexivity. Qed.

Lemma record_searches_history (entries : list search_entry) :
  forall (users : gmap string Auth.user) (email : string) (u : Auth.user)
         (e : search_entry),
    users !! email = Some u ->
    exists u' : Auth.user,
      record_searches users email (e :: entries) !! email = Some u'
      /\ history u'
         = drop (length (history u ++ e :: entries) - 50)
             (history u ++ e :: entries).
Proof.
  induction entries as [|e2 rest IH]; intros users email u e U.
  - cbn [record_searches]. rewrite (record_search_saved _ _ _ _ U).
    eexists. split; [apply lookup_insert_eq|]. reflexivity.
  - change (record_searches users email (e :: e2 :: rest))
      with (match record_search users email (search_timestamp e)
                    (search_category e) (search_keywords e)
                    (matches_count e) (image e) with
            | Some saved => record_searches saved email (e2 :: rest)
            | None => record_searches users email (e2 :: rest)
            end).
    rewrite (record_search_saved _ _ _ _ U).
    match goal with
    | |- context [<[email := ?x]> users] =>
        destruct (IH (<[email := x]> users) email x e2 (lookup_insert_eq _ _ _))
          as (u' & L & H)
    end.
    exists u'. split; [exact L|]. rewrite H.
    cbn [history set_searches searches].
    rewrite drop_tail_app, <- app_assoc. reflexivity.
Qed.

(** X13. The search history of an account is capped at 50: after any
    non-empty run of searches by an account it is the last 50 of the old
    entries followed by the new ones, in their order; a missing history
    counts as empty. *)
Theorem search_history_keeps_last_50 (users : gmap string Auth.user)
    (email : string) (u : Auth.user) (entries : list search_entry) :
  users !! email = Some u ->
  entries <> [] ->
  exists u' : Auth.user,
    record_searches users email entries !! email = Some u'
    /\ history u'
       = drop (length (history u ++ entries) - 50) (history u ++ entries)
    /\ length (history u') <= 50
    /\ last (history u') = last entries.
Proof.
  intros U N. destruct entries as [|e entries]; [congruence|].
  destruct (record_searches_history entries users email u e U) as (u' & L & H).
  exists u'. split; [exact L|]. split; [exact H|]. split.
  - rewrite H, length_drop. lia.
  - rewrite H.
    assert (E : exists front x, e :: entries = front ++ [x]).
    { destruct (@exists_last _ (e :: entries)) as (front & x & ->);
        [discriminate|]. eauto. }
    destruct E as (front & x & ->).
    rewrite app_assoc, last_snoc.
    rewrite drop_app_le by (rewrite !length_app; cbn [length]; lia).
    apply last_snoc.
Qed.

(** X14. The history update touches one field of one account: the other
    accounts are as before, the account keeps its user name, password,
    full name, role, creation time, last login and upload count, and for
    an email without account nothing is saved. *)
Theorem record_search_is_local (users : gmap string Auth.user)
    (email now label keywords : string) (n_matches : nat)
    (unique_filename : string) :
  match record_search users email now label keywords n_matches
          unique_filename with
  | Some saved =>
      (forall k : string, k <> email -> saved !! k = users !! k)
      /\ exists u u' : Auth.user,
           users !! email = Some u /\ saved !! email = Some u'
           /\ username u' = username u /\ password u' = password u
           /\ full_name u' = full_name u /\ role u' = role u
           /\ created_at u' = created_at u /\ last_login u' = last_login u
           /\ uploads_count u' = uploads_count u
  | None => users !! email = None
  end.
Proof.
  unfold record_search. destruct (users !! email) as [u|] eqn:U;
    [|reflexivity].
  split.
  - intros k N. apply lookup_insert_ne. congruence.
  - exists u. eexists. split; [reflexivity|].
    split; [apply lookup_insert_eq|]. repeat split.
Qed.

(** X15. The profile page shows the newest searches first: the recent
    list is the first five entries of the reversed history (all of them
    when there are fewer), and the total is the length of the history; an
    unknown email or a missing history gives zero and no entry. *)
Theorem profile_shows_newest_first (users : gmap string Auth.user)
    (email : string) :
  let searches := match users !! email with
                  | Some u => history u
                  | None => []
                  end in
  profile_stats users email = (length searches, take 5 (rev searches))
  /\ length (snd (profile_stats users email)) = Nat.min 5 (length searches).
Proof.
  intros searches.
  assert (E : profile_stats users email
              = (length searches, take 5 (rev searches))).
  { unfold profile_stats. fold searches.
    destruct (Nat.ltb_spec 0 (length searches)) as [L|L].
    - f_equal. symmetry. apply List.firstn_rev.
    - destruct searches; [reflexivity|cbn [length] in L; lia]. }
  split; [exact E|].
  rewrite E. cbn [snd]. rewrite length_take, length_rev. reflexivity.
Qed.

Lemma filter_length_perm {A : Type} (f : A -> bool) (l l' : list A) :
  Permutation l l' ->
  length (List.filter f l) = length (List.filter f l').
Proof.
  induction 1 as [|x l l' _ IH|x y l|l l' l'' _ IH1 _ IH2];
    cbn [List.filter].
  - reflexivity.
  - destruct (f x); cbn [length]; congruence.
  - destruct (f x), (f y); reflexivity.
  - congruence.
Qed.

(** X16. The counters of the home page: the active users are never more
    than the registered ones, and an accepted login (the clock text not
    being empty) leaves the number of registered users as it was and adds
    one active user exactly when the account had not logged in before. *)
Theorem index_counts_logins (T : text_ops) (sha256 : string -> list ascii)
    (users saved : gmap string Auth.user)
    (form_email form_password now remote_addr : string) (s : Auth.session)
    (actor act details_ message category : string) (target : endpoint) :
  login T sha256 users form_email form_password now remote_addr
  = Accepted saved s actor act details_ message category target ->
  truthy now = true ->
  snd (index_stats users) <= fst (index_stats users)
  /\ fst (index_stats saved) = fst (index_stats users)
  /\ exists u : Auth.user,
       users !! str_lower T (str_strip T form_email) = Some u
       /\ snd (index_stats saved)
          = snd (index_stats users) + (if has_logged_in u then 0 else 1).
Proof.
  intros L N. apply login_inv in L as (u & U & _ & -> & _).
  unfold index_stats. cbn [fst snd]. split; [|split].
  - rewrite <- length_map_to_list, <- (length_map snd).
    apply List.filter_length_le.
  - apply map_size_insert_Some. rewrite U. eauto.
  - exists u. split; [exact U|].
    set (k := str_lower T (str_strip T form_email)) in *.
    assert (P1 : Permutation (map_to_list (<[k := set_last_login now u]> users))
                   ((k, set_last_login now u) :: map_to_list (delete k users))).
    { rewrite <- insert_delete_eq. apply map_to_list_insert, lookup_delete_eq. }
    assert (P2 : Permutation (map_to_list users)
                   ((k, u) :: map_to_list (delete k users))).
    { rewrite <- (insert_delete_id users k u U) at 1.
      apply map_to_list_insert, lookup_delete_eq. }
    rewrite (filter_length_perm _ _ _ (Permutation_map snd P1)).
    rewrite (filter_length_perm _ _ _ (Permutation_map snd P2)).
    cbn [map snd List.filter].
    replace (has_logged_in (set_last_login now u)) with true
      by (unfold has_logged_in; cbn [last_login set_last_login]; congruence).
    destruct (has_logged_in u); cbn [length]; lia.
Qed.

End SessionFacts.

(** ** More on the catalog loader *)

Section MoreCatalogFacts.
Import PyStr PyFloat Catalog Provenance.

Variable T : text_ops.
Variable str_of_series : nat -> string -> list cell -> string.

Local Abbreviation load_product_database :=
  (Catalog.load_product_database T str_of_series).
Local Abbreviation try_file := (Catalog.try_file T str_of_series).
Local Abbreviation load_rows := (Catalog.load_rows T str_of_series).
Local Abbreviation make_product := (Catalog.make_product T str_of_series).
Local Abbreviation normalize_columns := (Catalog.normalize_columns T).
Local Abbreviation rows_of := (Catalog.rows_of T).
Local Abbreviation made_from := (Provenance.made_from T str_of_series).
Local Abbreviation from_listing := (Provenance.from_listing T str_of_series).
Local Abbreviation title := (str_title T).

Lemma made_from_later (store_name : string) (index : nat) (row : series)
    (rows : list series) (p : product) :
  made_from store_name (S index) rows p ->
  made_from store_name index (row :: rows) p.
Proof.
  intros (i & r & a & Hr & Sr & M). exists (S i), r, a.
  split; [exact Hr|]. split; [exact Sr|].
  replace (index + S i) with (S index + i) by lia. exact M.
Qed.

Lemma load_rows_origin (store_name : string) (index : nat)
    (rows : list series) (acc : list product) (p : product) :
  In p (fst (load_rows store_name index rows acc)) ->
  In p acc \/ made_from store_name index rows p.
Proof.
  revert index acc. induction rows as [|row rows IH]; intros index acc H.
  - left. exact H.
  - destruct (supplies_both row) eqn:Sb.
    + destruct (converts row) eqn:C.
      * destruct (load_rows_accept T str_of_series store_name index row rows
                    acc Sb C) as (q & E & R).
        rewrite R in H. destruct (IH _ _ H) as [Hin|M].
        -- apply in_app_or in Hin as [Hin|[<-|[]]]; [left; exact Hin|].
           right. exists 0, row, acc. split; [reflexivity|].
           split; [exact Sb|]. rewrite Nat.add_0_r. exact E.
        -- right. apply made_from_later, M.
      * rewrite load_rows_raise in H by assumption. left. exact H.
    + rewrite load_rows_skip in H by assumption.
      destruct (IH _ _ H) as [Hin|M]; [left; exact Hin|].
      right. apply made_from_later, M.
Qed.

Lemma try_file_origin (f : file) (acc : list product) (p : product) :
  In p (fst (try_file f acc)) ->
  In p acc \/ made_from (title (splitext_root (filename f))) 0 (rows_of f) p.
Proof.
  unfold Catalog.try_file, Catalog.rows_of. destruct (read_csv f).
  - intros H. left. exact H.
  - apply load_rows_origin.
Qed.

Lemma fold_origin (files : list file) (acc : list product) (p : product) :
  In p (fold_left (fun acc f => fst (try_file f acc)) files acc) ->
  In p acc
  \/ exists f : file,
       In f files
       /\ made_from (title (splitext_root (filename f))) 0 (rows_of f) p.
Proof.
  revert acc. induction files as [|f files IH]; intros acc H.
  - left. exact H.
  - cbn [fold_left] in H. destruct (IH _ H) as [Hin|(g & Hg & M)].
    + destruct (try_file_origin f acc p Hin) as [Ha|M]; [left; exact Ha|].
      right. exists f. split; [left; reflexivity|exact M].
    + right. exists g. split; [right; exact Hg|exact M].
Qed.

(** X17. Nothing in the catalog is invented: every record the load
    returns was built by the loop body from a row, carrying both a name
    and a price key, of a file of the directory whose name ends in ".csv",
    and its store is what [str.title] makes of the file name without
    extension. *)
Theorem loaded_product_origin (listing : list file) (p : product) :
  In p (fst (load_product_database listing)) ->
  from_listing listing p
  /\ exists f : file,
       In f listing /\ endswith (filename f) ".csv" = true
       /\ store p = title (splitext_root (filename f)).
Proof.
  rewrite load_products. intros H.
  destruct (fold_origin _ _ _ H) as [[]|(f & Hf & M)].
  apply List.filter_In in Hf as [Hf C].
  split; [exists f; repeat split; assumption|].
  exists f. repeat split; [assumption..|].
  destruct M as (i & row & acc & _ & _ & M).
  unfold Catalog.make_product in M.
  destruct (lookup row "name"); [|discriminate].
  destruct (lookup row "price") as [v|]; [|discriminate].
  destruct (item_float v); [|discriminate].
  injection M as <-. reflexivity.
Qed.

Lemma has_key_combine (labels : list string) (cells : list cell)
    (key : string) :
  has_key (combine labels cells) key = true -> In key labels.
Proof.
  revert cells. induction labels as [|l labels IH]; intros [|c cells];
    cbn; try discriminate.
  destruct (String.eqb_spec l key) as [->|_]; [intros _; left; reflexivity|].
  cbn. intros H. right. eapply IH, H.
Qed.

Lemma load_rows_none (store_name : string) (index : nat)
    (rows : list series) (acc : list product) :
  (forall row, In row rows -> supplies_both row = false) ->
  load_rows store_name index rows acc = (acc, true).
Proof.
  revert index. induction rows as [|row rows IH]; intros index H;
    [reflexivity|].
  rewrite load_rows_skip by (apply H; left; reflexivity).
  apply IH. intros r Hr. apply H. right. exact Hr.
Qed.

(** X19. Files that add nothing.  A file whose name does not end in
    ".csv" is not looked at: the load returns and prints the same with or
    without it.  A CSV file whose header, lower-cased and trimmed, lacks
    the column "name" or the column "price" is read to its end without
    error and adds no record, however many rows it has. *)
Theorem files_without_records (before after : list file) (f : file) :
  (is_csv f = false ->
   load_product_database (before ++ f :: after)
   = load_product_database (before ++ after))
  /\ (forall df : dataframe,
        read_csv f = Frame df ->
        ~ In "name" (columns (normalize_columns df))
        \/ ~ In "price" (columns (normalize_columns df)) ->
        (forall acc : list product, try_file f acc = (acc, true))
        /\ fst (load_product_database (before ++ f :: after))
           = fst (load_product_database (before ++ after))).
Proof.
  split.
  - intros C. unfold Catalog.load_product_database.
    rewrite !List.filter_app. cbn [List.filter]. rewrite C. reflexivity.
  - intros df R Hcol.
    assert (F : forall acc, try_file f acc = (acc, true)).
    { intros acc. unfold Catalog.try_file. rewrite R. apply load_rows_none.
      intros row Hrow. unfold iterrows in Hrow.
      apply in_map_iff in Hrow as (cells & <- & _).
      unfold supplies_both. apply andb_false_iff.
      destruct Hcol as [N|N]; [left|right];
        (destruct (has_key _ _) eqn:K; [|reflexivity]);
        apply has_key_combine in K; contradiction. }
    split; [exact F|].
    rewrite !load_products, !List.filter_app, !fold_left_app.
    cbn [List.filter]. destruct (is_csv f); [|reflexivity].
    cbn [fold_left]. rewrite F. reflexivity.
Qed.

Lemma load_rows_bound (store_name : string) (index : nat)
    (rows : list series) (acc : list product) :
  length (fst (load_rows store_name index rows acc))
  <= length acc + length (List.filter supplies_both rows).
Proof.
  revert index acc. induction rows as [|row rows IH]; intros index acc.
  - cbn. lia.
  - cbn [List.filter]. destruct (supplies_both row) eqn:Sb.
    + destruct (converts row) eqn:C.
      * destruct (load_rows_accept T str_of_series store_name index row rows
                    acc Sb C) as (p & _ & ->).
        specialize (IH (S index) (acc ++ [p])). rewrite length_app in IH.
        cbn [length] in IH |- *. lia.
      * rewrite load_rows_raise by assumption. cbn [fst length]. lia.
    + rewrite load_rows_skip by assumption. apply IH.
Qed.

Lemma fold_bound (files : list file) (acc : list product) :
  length (fold_left (fun acc f => fst (try_file f acc)) files acc)
  <= length acc + length (List.filter supplies_both (flat_map rows_of files)).
Proof.
  revert acc. induction files as [|f files IH]; intros acc.
  - cbn. lia.
  - cbn [fold_left flat_map]. specialize (IH (fst (try_file f acc))).
    rewrite List.filter_app, length_app.
    assert (B : length (fst (try_file f acc))
                <= length acc + length (List.filter supplies_both (rows_of f))).
    { unfold Catalog.try_file, Catalog.rows_of. destruct (read_csv f).
      - cbn. lia.
      - apply load_rows_bound. }
    lia.
Qed.

(** X20. Whatever the files hold, the load never returns more records
    than there are rows, over the CSV files that could be read, carrying
    both a name and a price key; in particular a directory without such
    rows gives an empty catalog. *)
Theorem load_count_at_most (listing : list file) :
  length (fst (load_product_database listing))
  <= length (List.filter supplies_both
               (flat_map rows_of (List.filter is_csv listing))).
Proof. rewrite load_products. apply (fold_bound _ []). Qed.

End MoreCatalogFacts.

(** ** More on matching *)

Section MoreSearchFacts.
Import PyStr PyFloat Catalog Search.

Variable T : text_ops.
Variable str_of_series : nat -> string -> list cell -> string.

Local Abbreviation process := (Search.process T).
Local Abbreviation selected := (Search.selected T).
Local Abbreviation form_keywords := (Search.form_keywords T).
Local Abbreviation split := (str_split T).
Local Abbreviation load_product_database :=
  (Catalog.load_product_database T str_of_series).

Lemma existsb_incl {A : Type} (f : A -> bool) (l1 l2 : list A) :
  (forall x, In x l1 -> In x l2) ->
  existsb f l1 = true -> existsb f l2 = true.
Proof.
  intros I H. apply existsb_exists in H as (x & Hx & Hf).
  apply existsb_exists. exists x. split; [apply I, Hx|exact Hf].
Qed.

Lemma more_words_selected (label1 label2 raw1 raw2 : string) (p : product) :
  truthy (form_keywords raw1) = true ->
  truthy (form_keywords raw2) = true ->
  (forall w, In w (split (form_keywords raw1)) ->
             In w (split (form_keywords raw2))) ->
  selected label1 (form_keywords raw1) p = true ->
  selected label2 (form_keywords raw2) p = true.
Proof.
  intros K1 K2 I.
  unfold Search.selected, Search.key_match. rewrite K1, K2.
  apply existsb_incl, I.
Qed.

Lemma filter_length_mono {A : Type} (f g : A -> bool) (l : list A) :
  (forall x, f x = true -> g x = true) ->
  length (List.filter f l) <= length (List.filter g l).
Proof.
  intros H. induction l as [|x l IH]; cbn [List.filter]; [lia|].
  destruct (f x) eqn:F.
  - rewrite (H x F). cbn [length]. lia.
  - destruct (g x); cbn [length]; lia.
Qed.

(** X21. Only the set of key words counts.  When two keyword texts,
    neither of them empty once lower-cased and trimmed, are split into the
    same words, in whatever order and however often repeated, the two
    searches return the same records in the same order and the same best
    price, whatever the labels. *)
Theorem keywords_same_words (database : list product)
    (label1 label2 raw1 raw2 : string) :
  truthy (form_keywords raw1) = true ->
  truthy (form_keywords raw2) = true ->
  (forall w, In w (split (form_keywords raw1))
             <-> In w (split (form_keywords raw2))) ->
  process database label1 raw1 = process database label2 raw2.
Proof.
  intros K1 K2 I.
  unfold Search.process, Search.find_matches. f_equal.
  apply List.filter_ext. intros p.
  destruct (selected label1 (form_keywords raw1) p) eqn:S1.
  - symmetry. apply (more_words_selected label1 label2 raw1 raw2 p K1 K2);
      [intros w; apply I|exact S1].
  - destruct (selected label2 (form_keywords raw2) p) eqn:S2; [|reflexivity].
    rewrite <- S1.
    apply (more_words_selected label2 label1 raw2 raw1 p K2 K1);
      [intros w; apply I|exact S2].
Qed.

(** X22. More key words never give fewer results: when neither keyword
    text is empty once lower-cased and trimmed and every word of the first
    is a word of the second, every record the first search returns is
    returned by the second, which returns at least as many. *)
Theorem keywords_more_words (database : list product)
    (label1 label2 raw1 raw2 : string) :
  truthy (form_keywords raw1) = true ->
  truthy (form_keywords raw2) = true ->
  (forall w, In w (split (form_keywords raw1)) ->
             In w (split (form_keywords raw2))) ->
  (forall p : product,
     In p (fst (process database label1 raw1)) ->
     In p (fst (process database label2 raw2)))
  /\ length (fst (process database label1 raw1))
     <= length (fst (process database label2 raw2)).
Proof.
  intros K1 K2 I. split.
  - intros p. rewrite !in_process. intros [D S]. split; [exact D|].
    apply (more_words_selected label1 label2 raw1 raw2 p K1 K2 I S).
  - rewrite !process_matches.
    rewrite !(Permutation_length (sort_by_price_perm _)).
    apply filter_length_mono. intros p.
    apply (more_words_selected label1 label2 raw1 raw2 p K1 K2 I).
Qed.

Lemma NoDup_map_filter {A B : Type} (f : A -> B) (g : A -> bool) (l : list A) :
  List.NoDup (map f l) -> List.NoDup (map f (List.filter g l)).
Proof.
  induction l as [|x l IH]; cbn [map List.filter]; intros N; [constructor|].
  inversion N as [|? ? Hx Hl]; subst.
  destruct (g x); [|apply IH, Hl].
  cbn [map]. constructor; [|apply IH, Hl].
  intros H. apply Hx. apply in_map_iff in H as (y & E & Hy).
  apply in_map_iff. exists y. split; [exact E|].
  apply List.filter_In in Hy. tauto.
Qed.

(** X25. A search over a loaded catalog returns no product identifier
    twice, whatever the directory, the label and the key words. *)
Theorem results_have_distinct_ids (listing : list file) (label raw : string) :
  List.NoDup
    (map product_id
       (fst (process (fst (load_product_database listing)) label raw))).
Proof.
  rewrite process_matches.
  eapply Permutation_NoDup.
  - apply Permutation_map. symmetry. apply sort_by_price_perm.
  - unfold Search.find_matches. apply NoDup_map_filter.
    rewrite load_products.
    assert (D0 : dense []) by reflexivity.
    destruct (fold_grows T str_of_series (List.filter is_csv listing) [] D0)
      as [D _].
    rewrite D. apply List.seq_NoDup.
Qed.

End MoreSearchFacts.

(** ** Examples for the further properties *)

Lemma register_requirements_witness :
  Accounts.register AsciiText.ops Samples.toy_sha256 Samples.one_user
    " Bob@Shop.io " "bob " "Bob Ray" "hunter22" "hunter22"
    Samples.toy_entropy "2025-02-01 08:00:00"
  = Accounts.Registered Fixtures.two_users "bob@shop.io" "REGISTER"
      "New user: bob" "Registration successful! Please login" "success"
      Accounts.LoginPage
  /\ 6 <= PyStr.len "hunter22"
  /\ Samples.one_user
     !! PyStr.str_lower AsciiText.ops
          (PyStr.str_strip AsciiText.ops " Bob@Shop.io ")
     = None.
Proof.
  assert (R : Accounts.register AsciiText.ops Samples.toy_sha256
                Samples.one_user
                " Bob@Shop.io " "bob " "Bob Ray" "hunter22" "hunter22"
                Samples.toy_entropy "2025-02-01 08:00:00"
              = Accounts.Registered Fixtures.two_users "bob@shop.io" "REGISTER"
                  "New user: bob" "Registration successful! Please login"
                  "success" Accounts.LoginPage)
    by (vm_compute; reflexivity).
  split; [exact R|].
  destruct (register_requirements AsciiText.ops Samples.toy_sha256
              _ _ _ _ _ _ _ _ _ _ _ _ _ _ _ R)
    as (_ & _ & _ & _ & L & U).
  split; [exact L|exact U].
Defined.

Lemma register_then_login_witness :
  Accounts.register AsciiText.ops Samples.toy_sha256 Samples.one_user
    " Bob@Shop.io " "bob " "Bob Ray" "hunter22" "hunter22"
    Samples.toy_entropy "2025-02-01 08:00:00"
  = Accounts.Registered Fixtures.two_users "bob@shop.io" "REGISTER"
      "New user: bob" "Registration successful! Please login" "success"
      Accounts.LoginPage
  /\ PyStr.str_lower AsciiText.ops
       (PyStr.str_strip AsciiText.ops "BOB@shop.io  ")
     = PyStr.str_lower AsciiText.ops
         (PyStr.str_strip AsciiText.ops " Bob@Shop.io ")
  /\ exists (u' : Accounts.users_disk) (d' : ActivityLog.disk)
            (console' : list string),
       Accounts.login_request AsciiText.ops Samples.toy_sha256
         {| Accounts.users_json := Accounts.UsersJson Fixtures.two_users;
            Accounts.users_writable := ActivityLog.CanWrite |}
         Fixtures.open_disk [] None "BOB@shop.io  " "hunter22"
         "2025-02-02 09:00:00" "2025-02-02 09:00:01" "10.0.0.7"
       = Accounts.Replied u' d' console'
           (Some {| Auth.user_email :=
                      PyStr.str_lower AsciiText.ops
                        (PyStr.str_strip AsciiText.ops " Bob@Shop.io ");
                    Auth.user_name := PyStr.str_strip AsciiText.ops "bob ";
                    Auth.session_full_name :=
                      PyStr.str_strip AsciiText.ops "Bob Ray";
                    Auth.session_role := "user";
                    Auth.permanent := true |})
           ("Welcome back, " ++ PyStr.str_strip AsciiText.ops "bob " ++ "!")
           "success" Auth.IndexPage.
Proof.
  assert (R : Accounts.register AsciiText.ops Samples.toy_sha256
                Samples.one_user
                " Bob@Shop.io " "bob " "Bob Ray" "hunter22" "hunter22"
                Samples.toy_entropy "2025-02-01 08:00:00"
              = Accounts.Registered Fixtures.two_users "bob@shop.io" "REGISTER"
                  "New user: bob" "Registration successful! Please login"
                  "success" Accounts.LoginPage)
    by (vm_compute; reflexivity).
  assert (E : PyStr.str_lower AsciiText.ops
                (PyStr.str_strip AsciiText.ops "BOB@shop.io  ")
              = PyStr.str_lower AsciiText.ops
                  (PyStr.str_strip AsciiText.ops " Bob@Shop.io "))
    by (vm_compute; reflexivity).
  split; [exact R|]. split; [exact E|].
  exact (register_then_login AsciiText.ops Samples.toy_sha256
           _ _ _ _ _ _ _ _ _ _ _ _ _ _ _
           {| Accounts.users_json := Accounts.UsersJson Fixtures.two_users;
              Accounts.users_writable := ActivityLog.CanWrite |}
           Fixtures.open_disk [] None "BOB@shop.io  " "2025-02-02 09:00:00"
           "2025-02-02 09:00:01" "10.0.0.7" R E eq_refl eq_refl eq_refl).
Defined.

Lemma registered_user_is_not_admin_witness :
  Accounts.login_required tt (Some Fixtures.bob_session) = Accounts.Allowed tt
  /\ Accounts.admin_required tt (Some Fixtures.bob_session)
       Fixtures.two_users_later
     = Accounts.Denied "🔒 Admin access required" "danger" Accounts.IndexPage.
Proof.
  assert (R : Accounts.register AsciiText.ops Samples.toy_sha256
                Samples.one_user
                " Bob@Shop.io " "bob " "Bob Ray" "hunter22" "hunter22"
                Samples.toy_entropy "2025-02-01 08:00:00"
              = Accounts.Registered Fixtures.two_users "bob@shop.io" "REGISTER"
                  "New user: bob" "Registration successful! Please login"
                  "success" Accounts.LoginPage)
    by (vm_compute; reflexivity).
  assert (L : Auth.login AsciiText.ops Samples.toy_sha256 Fixtures.two_users
                "bob@shop.io" "hunter22" "2025-02-02 09:00:00" "10.0.0.7"
              = Auth.Accepted Fixtures.two_users_later Fixtures.bob_session
                  "bob@shop.io" "LOGIN" "Successful login from 10.0.0.7"
                  "Welcome back, bob!" "success" Auth.IndexPage)
    by (vm_compute; reflexivity).
  assert (E : PyStr.str_lower AsciiText.ops
                (PyStr.str_strip AsciiText.ops "bob@shop.io")
              = PyStr.str_lower AsciiText.ops
                  (PyStr.str_strip AsciiText.ops " Bob@Shop.io "))
    by (vm_compute; reflexivity).
  destruct (registered_user_is_not_admin AsciiText.ops Samples.toy_sha256
              unit tt
              _ _ _ _ _ _ _ _ _ _ _ _ _ _ _ _ _ _ _ _ _ _ _ _ _ _ R L E)
    as (H1 & H2 & _).
  split; [exact H1|exact H2].
Defined.

Lemma login_changes_only_last_login_witness :
  Auth.login AsciiText.ops Samples.toy_sha256 Fixtures.two_users
    "bob@shop.io" "hunter22" "2025-02-02 09:00:00" "10.0.0.7"
  = Auth.Accepted Fixtures.two_users_later Fixtures.bob_session "bob@shop.io"
      "LOGIN" "Successful login from 10.0.0.7" "Welcome back, bob!" "success"
      Auth.IndexPage
  /\ dom Fixtures.two_users_later = dom Fixtures.two_users.
Proof.
  assert (L : Auth.login AsciiText.ops Samples.toy_sha256 Fixtures.two_users
                "bob@shop.io" "hunter22" "2025-02-02 09:00:00" "10.0.0.7"
              = Auth.Accepted Fixtures.two_users_later Fixtures.bob_session
                  "bob@shop.io" "LOGIN" "Successful login from 10.0.0.7"
                  "Welcome back, bob!" "success" Auth.IndexPage)
    by (vm_compute; reflexivity).
  split; [exact L|].
  exact (proj1 (login_changes_only_last_login AsciiText.ops Samples.toy_sha256
                  _ _ _ _ _ _ _ _ _ _ _ _ _ L)).
Defined.

Lemma stored_passwords_stay_salted_witness :
  Accounts.well_formed Samples.toy_sha256 Samples.one_user
  /\ Auth.login AsciiText.ops Samples.toy_sha256 Samples.one_user
       "ann@shop.io" "a:b:c" "2025-02-02 09:00:00" "10.0.0.7"
     <> Auth.Crashed.
Proof.
  assert (W : Accounts.well_formed Samples.toy_sha256 Samples.one_user).
  { intros k u H. unfold Samples.one_user in H.
    apply lookup_singleton_Some in H as [_ <-].
    exists Samples.toy_entropy, "secret". reflexivity. }
  split; [exact W|].
  destruct (stored_passwords_stay_salted AsciiText.ops Samples.toy_sha256
              Samples.one_user W)
    as (_ & _ & _ & _ & H & _).
  apply H.
Defined.

Lemma initial_admin_can_log_in_witness :
  Accounts.load_users Accounts.UsersUnreadable = ∅
  /\ PyStr.str_lower AsciiText.ops
       (PyStr.str_strip AsciiText.ops " Admin@EPC.com")
     = "admin@epc.com"
  /\ exists (saved : gmap string Auth.user) (d' : ActivityLog.disk)
            (console' : list string) (s : Auth.session) (message : string),
       Accounts.login_request AsciiText.ops Samples.toy_sha256
         {| Accounts.users_json :=
              Accounts.init_users_file Samples.toy_sha256
                Accounts.UsersUnreadable Samples.toy_entropy
                "2025-01-01 00:00:00";
            Accounts.users_writable := ActivityLog.CanWrite |}
         Fixtures.open_disk [] None " Admin@EPC.com" "admin123"
         "2025-01-01 00:05:00" "2025-01-01 00:05:01" "127.0.0.1"
       = Accounts.Replied
           {| Accounts.users_json := Accounts.UsersJson saved;
              Accounts.users_writable := ActivityLog.CanWrite |}
           d' console' (Some s) message "success" Auth.AdminDashboard
       /\ Accounts.admin_required tt (Some s) saved = Accounts.Allowed tt.
Proof.
  assert (E : Accounts.load_users Accounts.UsersUnreadable = ∅) by reflexivity.
  assert (L : PyStr.str_lower AsciiText.ops
                (PyStr.str_strip AsciiText.ops " Admin@EPC.com")
              = "admin@epc.com")
    by (vm_compute; reflexivity).
  split; [exact E|]. split; [exact L|].
  exact (initial_admin_can_log_in AsciiText.ops Samples.toy_sha256 unit tt
           Accounts.UsersUnreadable Samples.toy_entropy
           {| Accounts.users_json :=
                Accounts.init_users_file Samples.toy_sha256
                  Accounts.UsersUnreadable Samples.toy_entropy
                  "2025-01-01 00:00:00";
              Accounts.users_writable := ActivityLog.CanWrite |}
           Fixtures.open_disk [] None "2025-01-01 00:00:00"
           " Admin@EPC.com" "2025-01-01 00:05:00" "2025-01-01 00:05:01"
           "127.0.0.1" E L eq_refl eq_refl eq_refl).
Defined.

Lemma journal_grows_below_cap_witness :
  ActivityLog.writable Fixtures.open_disk = ActivityLog.CanWrite
  /\ exists logs : list ActivityLog.log_entry,
       ActivityLog.log_activity Fixtures.open_disk [] "2025-02-02 09:00:00"
         "bob@shop.io" "LOGIN" "Successful login from 10.0.0.7" "10.0.0.7"
       = ActivityLog.Returned
           {| ActivityLog.logs_file := ActivityLog.Journal logs;
              ActivityLog.writable := ActivityLog.CanWrite |}
           ([] ++ [ActivityLog.console_line
                     {| ActivityLog.timestamp := "2025-02-02 09:00:00";
                        ActivityLog.user := "bob@shop.io";
                        ActivityLog.action := "LOGIN";
                        ActivityLog.details := "Successful login from 10.0.0.7";
                        ActivityLog.ip := "10.0.0.7" |}])
       /\ length logs = 3.
Proof.
  assert (W : ActivityLog.writable Fixtures.open_disk = ActivityLog.CanWrite)
    by reflexivity.
  split; [exact W|].
  destruct (journal_grows_below_cap Fixtures.open_disk [] "2025-02-02 09:00:00"
              "bob@shop.io" "LOGIN" "Successful login from 10.0.0.7" "10.0.0.7" W)
    as (logs & R & Hlen & _).
  exists logs. split; [exact R|]. rewrite Hlen. vm_compute. reflexivity.
Defined.

Lemma search_history_keeps_last_50_witness :
  Fixtures.two_users !! "bob@shop.io" = Some Fixtures.bob
  /\ Fixtures.searches_of 53 <> []
  /\ exists u' : Auth.user,
       Accounts.record_searches Fixtures.two_users "bob@shop.io"
         (Fixtures.searches_of 53) !! "bob@shop.io" = Some u'
       /\ length (Accounts.history u') <= 50.
Proof.
  assert (U : Fixtures.two_users !! "bob@shop.io" = Some Fixtures.bob)
    by (vm_compute; reflexivity).
  assert (N : Fixtures.searches_of 53 <> []) by discriminate.
  split; [exact U|]. split; [exact N|].
  destruct (search_history_keeps_last_50 Fixtures.two_users "bob@shop.io"
              Fixtures.bob (Fixtures.searches_of 53) U N)
    as (u' & L & _ & B & _).
  exists u'. split; [exact L|exact B].
Defined.

Lemma index_counts_logins_witness :
  PyStr.truthy "2025-02-02 09:00:00" = true
  /\ Accounts.index_stats Fixtures.two_users = (2, 0)
  /\ snd (Accounts.index_stats Fixtures.two_users_later)
     = snd (Accounts.index_stats Fixtures.two_users) + 1.
Proof.
  assert (L : Auth.login AsciiText.ops Samples.toy_sha256 Fixtures.two_users
                "bob@shop.io" "hunter22" "2025-02-02 09:00:00" "10.0.0.7"
              = Auth.Accepted Fixtures.two_users_later Fixtures.bob_session
                  "bob@shop.io" "LOGIN" "Successful login from 10.0.0.7"
                  "Welcome back, bob!" "success" Auth.IndexPage)
    by (vm_compute; reflexivity).
  assert (N : PyStr.truthy "2025-02-02 09:00:00" = true) by reflexivity.
  split; [exact N|]. split; [vm_compute; reflexivity|].
  destruct (index_counts_logins AsciiText.ops Samples.toy_sha256
              _ _ _ _ _ _ _ _ _ _ _ _ _ L N) as (_ & _ & u & U & H).
  rewrite H.
  assert (E : u = Fixtures.bob).
  { assert (U' : Fixtures.two_users
                 !! PyStr.str_lower AsciiText.ops
                      (PyStr.str_strip AsciiText.ops "bob@shop.io")
                 = Some Fixtures.bob) by (vm_compute; reflexivity).
    congruence. }
  rewrite E. reflexivity.
Defined.

Lemma loaded_product_origin_witness :
  In (Samples.item 1 "Phone A" "Generic" "smartphone" (99999 # 100))
     (fst (Catalog.load_product_database AsciiText.ops Samples.series_text
             [Samples.readme; Samples.mart_csv]))
  /\ Provenance.from_listing AsciiText.ops Samples.series_text
       [Samples.readme; Samples.mart_csv]
       (Samples.item 1 "Phone A" "Generic" "smartphone" (99999 # 100)).
Proof.
  assert (H : In (Samples.item 1 "Phone A" "Generic" "smartphone" (99999 # 100))
                (fst (Catalog.load_product_database AsciiText.ops
                        Samples.series_text
                        [Samples.readme; Samples.mart_csv])))
    by (vm_compute; left; reflexivity).
  split; [exact H|].
  exact (proj1 (loaded_product_origin AsciiText.ops Samples.series_text
                  _ _ H)).
Defined.

Lemma keywords_same_words_witness :
  PyStr.truthy (Search.form_keywords AsciiText.ops "nike shoes") = true
  /\ PyStr.truthy (Search.form_keywords AsciiText.ops " Shoes NIKE  nike")
     = true
  /\ Search.process AsciiText.ops Samples.phones "Sneaker" "nike shoes"
     = Search.process AsciiText.ops Samples.phones "Unknown"
         " Shoes NIKE  nike".
Proof.
  assert (K1 : PyStr.truthy (Search.form_keywords AsciiText.ops "nike shoes")
               = true)
    by (vm_compute; reflexivity).
  assert (K2 : PyStr.truthy
                 (Search.form_keywords AsciiText.ops " Shoes NIKE  nike")
               = true)
    by (vm_compute; reflexivity).
  assert (I : forall w,
            In w (PyStr.str_split AsciiText.ops
                    (Search.form_keywords AsciiText.ops "nike shoes"))
            <-> In w (PyStr.str_split AsciiText.ops
                        (Search.form_keywords AsciiText.ops
                           " Shoes NIKE  nike"))).
  { intros w.
    replace (PyStr.str_split AsciiText.ops
               (Search.form_keywords AsciiText.ops "nike shoes"))
      with ["nike"; "shoes"] by (vm_compute; reflexivity).
    replace (PyStr.str_split AsciiText.ops
               (Search.form_keywords AsciiText.ops " Shoes NIKE  nike"))
      with ["shoes"; "nike"; "nike"] by (vm_compute; reflexivity).
    cbn [In]. tauto. }
  split; [exact K1|]. split; [exact K2|].
  exact (keywords_same_words AsciiText.ops Samples.phones "Sneaker" "Unknown"
           "nike shoes" " Shoes NIKE  nike" K1 K2 I).
Defined.

Lemma keywords_more_words_witness :
  PyStr.truthy (Search.form_keywords AsciiText.ops "nike") = true
  /\ PyStr.truthy (Search.form_keywords AsciiText.ops "phone nike") = true
  /\ length (fst (Search.process AsciiText.ops Samples.phones "Sneaker"
                    "nike"))
     <= length (fst (Search.process AsciiText.ops Samples.phones "Sneaker"
                       "phone nike")).
Proof.
  assert (K1 : PyStr.truthy (Search.form_keywords AsciiText.ops "nike") = true)
    by (vm_compute; reflexivity).
  assert (K2 : PyStr.truthy (Search.form_keywords AsciiText.ops "phone nike")
               = true)
    by (vm_compute; reflexivity).
  assert (I : forall w,
            In w (PyStr.str_split AsciiText.ops
                    (Search.form_keywords AsciiText.ops "nike"))
            -> In w (PyStr.str_split AsciiText.ops
                       (Search.form_keywords AsciiText.ops "phone nike"))).
  { intros w.
    replace (PyStr.str_split AsciiText.ops
               (Search.form_keywords AsciiText.ops "nike"))
      with ["nike"] by (vm_compute; reflexivity).
    replace (PyStr.str_split AsciiText.ops
               (Search.form_keywords AsciiText.ops "phone nike"))
      with ["phone"; "nike"] by (vm_compute; reflexivity).
    cbn [In]. tauto. }
  split; [exact K1|]. split; [exact K2|].
  exact (proj2 (keywords_more_words AsciiText.ops Samples.phones "Sneaker"
                  "Sneaker" "nike" "phone nike" K1 K2 I)).
Defined.
